(** * weather.py: the NWS alert and forecast tools

    A shallow embedding of [src/weather.py]: the request helper
    [make_nws_request], the alert formatter [format_alert] and the two tools
    [get_alerts] and [get_forecast], over a model of the Python values that
    [res.json()] produces and of the operations the code applies to them
    ([in], subscripting, [.get], truthiness, slicing, iteration, f-string
    formatting). *)

From Stdlib Require Import String Ascii NArith ZArith List Bool Lia DecimalString.
Import ListNotations.
Open Scope list_scope.
Open Scope string_scope.

#[local] Set Warnings "-register-all".

(** ** Python values and exceptions *)

Module Py.

(** A [float], kept as the text Python's [repr] prints for it ("72.5",
    "1e+16", "nan"), which determines it. *)
Definition float : Type := string.

(** The values [json.loads] builds.  A [str] is kept as its UTF-8 bytes; a
    [dict] keeps its items in insertion order, each key once. *)
Inductive value : Type :=
| JNull
| JBool (b : bool)
| JInt (z : Z)
| JFloat (repr : float)
| JStr (s : string)
| JList (l : list value)
| JDict (d : list (string * value)).

(** The exceptions of the model, all of them subclasses of [Exception].
    Cancellation and interpreter exit ([BaseException]) are outside it.  The
    texts of [TypeError] and [AttributeError] are those of CPython 3.11
    (slicing a [dict] raises [KeyError] instead from 3.12 on); no statement
    below depends on them. *)
Inductive exn : Type :=
| KeyError (key : string)
| TypeError (msg : string)
| AttributeError (msg : string)
| RequestError (msg : string)      (* httpx: network error, timeout, bad URL *)
| HTTPStatusError (msg : string)   (* httpx: raise_for_status *)
| JSONDecodeError (msg : string).  (* res.json() on a body that is not JSON *)

Inductive result (A : Type) : Type :=
| Ok (a : A)
| Raise (e : exn).
Arguments Ok {A} a.
Arguments Raise {A} e.

Definition bind {A B} (r : result A) (k : A -> result B) : result B :=
  match r with
  | Ok a => k a
  | Raise e => Raise e
  end.

Notation "x <- c ;; k" := (bind c (fun x => k))
  (at level 61, c at next level, right associativity).

(** [[f x for x in l]]: evaluation stops at the first element that raises. *)
Fixpoint map_result {A B} (f : A -> result B) (l : list A) : result (list B) :=
  match l with
  | [] => Ok []
  | x :: l' => y <- f x ;; ys <- map_result f l' ;; Ok (y :: ys)
  end.

(** [a or b] on conditions: [b] is evaluated only when [a] is false. *)
Definition por (a b : result bool) : result bool :=
  x <- a ;; if x then Ok true else b.

Definition NL : string := String "010"%char EmptyString.
Definition squote : ascii := "039"%char.
Definition dquote : ascii := "034"%char.

Definition type_name (v : value) : string :=
  match v with
  | JNull => "NoneType"
  | JBool _ => "bool"
  | JInt _ => "int"
  | JFloat _ => "float"
  | JStr _ => "str"
  | JList _ => "list"
  | JDict _ => "dict"
  end.

(** [bool(v)], the test behind [not v] and [if v]. *)
Definition truthy (v : value) : bool :=
  match v with
  | JNull => false
  | JBool b => b
  | JInt z => negb (z =? 0)%Z
  | JFloat r => negb (String.eqb r "0.0" || String.eqb r "-0.0")
  | JStr s => negb (String.eqb s "")
  | JList l => match l with [] => false | _ => true end
  | JDict d => match d with [] => false | _ => true end
  end.

Fixpoint lookup (key : string) (d : list (string * value)) : option value :=
  match d with
  | [] => None
  | (k, v) :: d' => if String.eqb k key then Some v else lookup key d'
  end.

Definition is_str (key : string) (v : value) : bool :=
  match v with
  | JStr s => String.eqb s key
  | _ => false
  end.

Definition substring_of (key s : string) : bool :=
  match index 0 key s with
  | Some _ => true
  | None => false
  end.

(** [key in v] for a [str] key. *)
Definition contains (key : string) (v : value) : result bool :=
  match v with
  | JDict d => Ok (match lookup key d with Some _ => true | None => false end)
  | JList l => Ok (existsb (is_str key) l)
  | JStr s => Ok (substring_of key s)
  | _ => Raise (TypeError ("argument of type '" ++ type_name v ++ "' is not iterable"))
  end.

(** [v[key]] for a [str] key. *)
Definition getitem (v : value) (key : string) : result value :=
  match v with
  | JDict d =>
      match lookup key d with
      | Some x => Ok x
      | None => Raise (KeyError key)
      end
  | JList _ => Raise (TypeError "list indices must be integers or slices, not str")
  | JStr _ => Raise (TypeError "string indices must be integers, not 'str'")
  | _ => Raise (TypeError ("'" ++ type_name v ++ "' object is not subscriptable"))
  end.

(** [v.get(key, default)]: only a [dict] has the method. *)
Definition get (v : value) (key : string) (default : value) : result value :=
  match v with
  | JDict d =>
      match lookup key d with
      | Some x => Ok x
      | None => Ok default
      end
  | _ => Raise (AttributeError ("'" ++ type_name v ++ "' object has no attribute 'get'"))
  end.

(** The characters of a [str]: a UTF-8 lead byte with the continuation bytes
    (10xxxxxx) that follow it. *)
Definition is_continuation (c : ascii) : bool :=
  let n := nat_of_ascii c in (128 <=? n)%nat && (n <? 192)%nat.

Definition flush (cur : string) : list string :=
  match cur with
  | EmptyString => []
  | _ => [cur]
  end.

Fixpoint split_chars (cur s : string) : list string :=
  match s with
  | EmptyString => flush cur
  | String c rest =>
      if is_continuation c
      then split_chars (cur ++ String c EmptyString) rest
      else (flush cur ++ split_chars (String c EmptyString) rest)%list
  end.

Definition chars (s : string) : list string := split_chars EmptyString s.

(** [v[:n]]. *)
Definition slice_to (n : nat) (v : value) : result value :=
  match v with
  | JList l => Ok (JList (firstn n l))
  | JStr s => Ok (JStr (String.concat "" (firstn n (chars s))))
  | JDict _ => Raise (TypeError "unhashable type: 'slice'")
  | _ => Raise (TypeError ("'" ++ type_name v ++ "' object is not subscriptable"))
  end.

(** The elements [for x in v] runs over. *)
Definition iter (v : value) : result (list value) :=
  match v with
  | JList l => Ok l
  | JDict d => Ok (map (fun kv => JStr (fst kv)) d)
  | JStr s => Ok (map JStr (chars s))
  | _ => Raise (TypeError ("'" ++ type_name v ++ "' object is not iterable"))
  end.

(** [repr] of a [str]: single quotes unless the text holds one and no double
    quote; backslash, the quote and the characters that [str.isprintable]
    rejects escaped, the others kept. *)
Definition hex_digit (n : nat) : ascii :=
  if (n <? 10)%nat then ascii_of_nat (48 + n) else ascii_of_nat (87 + n).

Fixpoint hex (digits : nat) (n : N) : string :=
  match digits with
  | O => EmptyString
  | S k => hex k (n / 16) ++ String (hex_digit (N.to_nat (n mod 16))) EmptyString
  end.

Fixpoint has_char (c : ascii) (s : string) : bool :=
  match s with
  | EmptyString => false
  | String c' s' => Ascii.eqb c c' || has_char c s'
  end.

(** An ASCII character. *)
Definition escape_char (q c : ascii) : string :=
  let n := nat_of_ascii c in
  if Ascii.eqb c q || Ascii.eqb c "\"%char then String "\"%char (String c EmptyString)
  else if (n =? 9)%nat then "\t"
  else if (n =? 10)%nat then "\n"
  else if (n =? 13)%nat then "\r"
  else if (n <? 32)%nat || (n =? 127)%nat
       then "\x" ++ String (hex_digit (n / 16)) (String (hex_digit (n mod 16)) EmptyString)
  else String c EmptyString.

(** The code point of a character from its bytes: the payload bits of the
    lead byte, then six bits of each continuation byte.  A lone surrogate,
    which a JSON escape can put in a [str], has the three bytes this scheme
    gives it.  Bytes that are no character (a stray continuation byte, a lead
    byte with the wrong number of continuation bytes, a code point written
    with more bytes than it needs) have no code point. *)
Definition lead_payload (n : N) : option (N * nat) :=
  if (n <? 128)%N then Some (n, 0%nat)
  else if (n <? 192)%N then None
  else if (n <? 224)%N then Some ((n - 192)%N, 1%nat)
  else if (n <? 240)%N then Some ((n - 224)%N, 2%nat)
  else if (n <? 248)%N then Some ((n - 240)%N, 3%nat)
  else None.

Fixpoint continuation (acc : N) (s : string) : N :=
  match s with
  | EmptyString => acc
  | String c rest => continuation (acc * 64 + (N_of_ascii c - 128))%N rest
  end.

Definition code_point (char : string) : option N :=
  match char with
  | EmptyString => None
  | String c rest =>
      match lead_payload (N_of_ascii c) with
      | Some (payload, k) =>
          let cp := continuation payload rest in
          let least := match k with
                       | 0%nat => 0 | 1%nat => 128 | 2%nat => 2048 | _ => 65536
                       end%N in
          if (String.length rest =? k)%nat && (least <=? cp)%N && (cp <=? 1114111)%N
          then Some cp else None
      | None => None
      end
  end.

(** The code points from U+0080 on for which [str.isprintable] is false, as
    ranges: the categories Cc, Cf, Cs, Co, Cn, Zl, Zp and Zs of Unicode
    14.0, the version of CPython 3.11. *)
Definition non_printable_ranges : list (N * N) :=
  ([
   (128, 160); (173, 173); (888, 889); (896, 899); (907, 907); (909, 909);
   (930, 930); (1328, 1328); (1367, 1368); (1419, 1420); (1424, 1424);
   (1480, 1487); (1515, 1518); (1525, 1541); (1564, 1564); (1757, 1757);
   (1806, 1807); (1867, 1868); (1970, 1983); (2043, 2044); (2094, 2095);
   (2111, 2111); (2140, 2141); (2143, 2143); (2155, 2159); (2191, 2199);
   (2274, 2274); (2436, 2436); (2445, 2446); (2449, 2450); (2473, 2473);
   (2481, 2481); (2483, 2485); (2490, 2491); (2501, 2502); (2505, 2506);
   (2511, 2518); (2520, 2523); (2526, 2526); (2532, 2533); (2559, 2560);
   (2564, 2564); (2571, 2574); (2577, 2578); (2601, 2601); (2609, 2609);
   (2612, 2612); (2615, 2615); (2618, 2619); (2621, 2621); (2627, 2630);
   (2633, 2634); (2638, 2640); (2642, 2648); (2653, 2653); (2655, 2661);
   (2679, 2688); (2692, 2692); (2702, 2702); (2706, 2706); (2729, 2729);
   (2737, 2737); (2740, 2740); (2746, 2747); (2758, 2758); (2762, 2762);
   (2766, 2767); (2769, 2783); (2788, 2789); (2802, 2808); (2816, 2816);
   (2820, 2820); (2829, 2830); (2833, 2834); (2857, 2857); (2865, 2865);
   (2868, 2868); (2874, 2875); (2885, 2886); (2889, 2890); (2894, 2900);
   (2904, 2907); (2910, 2910); (2916, 2917); (2936, 2945); (2948, 2948);
   (2955, 2957); (2961, 2961); (2966, 2968); (2971, 2971); (2973, 2973);
   (2976, 2978); (2981, 2983); (2987, 2989); (3002, 3005); (3011, 3013);
   (3017, 3017); (3022, 3023); (3025, 3030); (3032, 3045); (3067, 3071);
   (3085, 3085); (3089, 3089); (3113, 3113); (3130, 3131); (3141, 3141);
   (3145, 3145); (3150, 3156); (3159, 3159); (3163, 3164); (3166, 3167);
   (3172, 3173); (3184, 3190); (3213, 3213); (3217, 3217); (3241, 3241);
   (3252, 3252); (3258, 3259); (3269, 3269); (3273, 3273); (3278, 3284);
   (3287, 3292); (3295, 3295); (3300, 3301); (3312, 3312); (3315, 3327);
   (3341, 3341); (3345, 3345); (3397, 3397); (3401, 3401); (3408, 3411);
   (3428, 3429); (3456, 3456); (3460, 3460); (3479, 3481); (3506, 3506);
   (3516, 3516); (3518, 3519); (3527, 3529); (3531, 3534); (3541, 3541);
   (3543, 3543); (3552, 3557); (3568, 3569); (3573, 3584); (3643, 3646);
   (3676, 3712); (3715, 3715); (3717, 3717); (3723, 3723); (3748, 3748);
   (3750, 3750); (3774, 3775); (3781, 3781); (3783, 3783); (3790, 3791);
   (3802, 3803); (3808, 3839); (3912, 3912); (3949, 3952); (3992, 3992);
   (4029, 4029); (4045, 4045); (4059, 4095); (4294, 4294); (4296, 4300);
   (4302, 4303); (4681, 4681); (4686, 4687); (4695, 4695); (4697, 4697);
   (4702, 4703); (4745, 4745); (4750, 4751); (4785, 4785); (4790, 4791);
   (4799, 4799); (4801, 4801); (4806, 4807); (4823, 4823); (4881, 4881);
   (4886, 4887); (4955, 4956); (4989, 4991); (5018, 5023); (5110, 5111);
   (5118, 5119); (5760, 5760); (5789, 5791); (5881, 5887); (5910, 5918);
   (5943, 5951); (5972, 5983); (5997, 5997); (6001, 6001); (6004, 6015);
   (6110, 6111); (6122, 6127); (6138, 6143); (6158, 6158); (6170, 6175);
   (6265, 6271); (6315, 6319); (6390, 6399); (6431, 6431); (6444, 6447);
   (6460, 6463); (6465, 6467); (6510, 6511); (6517, 6527); (6572, 6575);
   (6602, 6607); (6619, 6621); (6684, 6685); (6751, 6751); (6781, 6782);
   (6794, 6799); (6810, 6815); (6830, 6831); (6863, 6911); (6989, 6991);
   (7039, 7039); (7156, 7163); (7224, 7226); (7242, 7244); (7305, 7311);
   (7355, 7356); (7368, 7375); (7419, 7423); (7958, 7959); (7966, 7967);
   (8006, 8007); (8014, 8015); (8024, 8024); (8026, 8026); (8028, 8028);
   (8030, 8030); (8062, 8063); (8117, 8117); (8133, 8133); (8148, 8149);
   (8156, 8156); (8176, 8177); (8181, 8181); (8191, 8207); (8232, 8239);
   (8287, 8303); (8306, 8307); (8335, 8335); (8349, 8351); (8385, 8399);
   (8433, 8447); (8588, 8591); (9255, 9279); (9291, 9311); (11124, 11125);
   (11158, 11158); (11508, 11512); (11558, 11558); (11560, 11564);
   (11566, 11567); (11624, 11630); (11633, 11646); (11671, 11679);
   (11687, 11687); (11695, 11695); (11703, 11703); (11711, 11711);
   (11719, 11719); (11727, 11727); (11735, 11735); (11743, 11743);
   (11870, 11903); (11930, 11930); (12020, 12031); (12246, 12271);
   (12284, 12288); (12352, 12352); (12439, 12440); (12544, 12548);
   (12592, 12592); (12687, 12687); (12772, 12783); (12831, 12831);
   (42125, 42127); (42183, 42191); (42540, 42559); (42744, 42751);
   (42955, 42959); (42962, 42962); (42964, 42964); (42970, 42993);
   (43053, 43055); (43066, 43071); (43128, 43135); (43206, 43213);
   (43226, 43231); (43348, 43358); (43389, 43391); (43470, 43470);
   (43482, 43485); (43519, 43519); (43575, 43583); (43598, 43599);
   (43610, 43611); (43715, 43738); (43767, 43776); (43783, 43784);
   (43791, 43792); (43799, 43807); (43815, 43815); (43823, 43823);
   (43884, 43887); (44014, 44015); (44026, 44031); (55204, 55215);
   (55239, 55242); (55292, 63743); (64110, 64111); (64218, 64255);
   (64263, 64274); (64280, 64284); (64311, 64311); (64317, 64317);
   (64319, 64319); (64322, 64322); (64325, 64325); (64451, 64466);
   (64912, 64913); (64968, 64974); (64976, 65007); (65050, 65055);
   (65107, 65107); (65127, 65127); (65132, 65135); (65141, 65141);
   (65277, 65280); (65471, 65473); (65480, 65481); (65488, 65489);
   (65496, 65497); (65501, 65503); (65511, 65511); (65519, 65531);
   (65534, 65535); (65548, 65548); (65575, 65575); (65595, 65595);
   (65598, 65598); (65614, 65615); (65630, 65663); (65787, 65791);
   (65795, 65798); (65844, 65846); (65935, 65935); (65949, 65951);
   (65953, 65999); (66046, 66175); (66205, 66207); (66257, 66271);
   (66300, 66303); (66340, 66348); (66379, 66383); (66427, 66431);
   (66462, 66462); (66500, 66503); (66518, 66559); (66718, 66719);
   (66730, 66735); (66772, 66775); (66812, 66815); (66856, 66863);
   (66916, 66926); (66939, 66939); (66955, 66955); (66963, 66963);
   (66966, 66966); (66978, 66978); (66994, 66994); (67002, 67002);
   (67005, 67071); (67383, 67391); (67414, 67423); (67432, 67455);
   (67462, 67462); (67505, 67505); (67515, 67583); (67590, 67591);
   (67593, 67593); (67638, 67638); (67641, 67643); (67645, 67646);
   (67670, 67670); (67743, 67750); (67760, 67807); (67827, 67827);
   (67830, 67834); (67868, 67870); (67898, 67902); (67904, 67967);
   (68024, 68027); (68048, 68049); (68100, 68100); (68103, 68107);
   (68116, 68116); (68120, 68120); (68150, 68151); (68155, 68158);
   (68169, 68175); (68185, 68191); (68256, 68287); (68327, 68330);
   (68343, 68351); (68406, 68408); (68438, 68439); (68467, 68471);
   (68498, 68504); (68509, 68520); (68528, 68607); (68681, 68735);
   (68787, 68799); (68851, 68857); (68904, 68911); (68922, 69215);
   (69247, 69247); (69290, 69290); (69294, 69295); (69298, 69375);
   (69416, 69423); (69466, 69487); (69514, 69551); (69580, 69599);
   (69623, 69631); (69710, 69713); (69750, 69758); (69821, 69821);
   (69827, 69839); (69865, 69871); (69882, 69887); (69941, 69941);
   (69960, 69967); (70007, 70015); (70112, 70112); (70133, 70143);
   (70162, 70162); (70207, 70271); (70279, 70279); (70281, 70281);
   (70286, 70286); (70302, 70302); (70314, 70319); (70379, 70383);
   (70394, 70399); (70404, 70404); (70413, 70414); (70417, 70418);
   (70441, 70441); (70449, 70449); (70452, 70452); (70458, 70458);
   (70469, 70470); (70473, 70474); (70478, 70479); (70481, 70486);
   (70488, 70492); (70500, 70501); (70509, 70511); (70517, 70655);
   (70748, 70748); (70754, 70783); (70856, 70863); (70874, 71039);
   (71094, 71095); (71134, 71167); (71237, 71247); (71258, 71263);
   (71277, 71295); (71354, 71359); (71370, 71423); (71451, 71452);
   (71468, 71471); (71495, 71679); (71740, 71839); (71923, 71934);
   (71943, 71944); (71946, 71947); (71956, 71956); (71959, 71959);
   (71990, 71990); (71993, 71994); (72007, 72015); (72026, 72095);
   (72104, 72105); (72152, 72153); (72165, 72191); (72264, 72271);
   (72355, 72367); (72441, 72703); (72713, 72713); (72759, 72759);
   (72774, 72783); (72813, 72815); (72848, 72849); (72872, 72872);
   (72887, 72959); (72967, 72967); (72970, 72970); (73015, 73017);
   (73019, 73019); (73022, 73022); (73032, 73039); (73050, 73055);
   (73062, 73062); (73065, 73065); (73103, 73103); (73106, 73106);
   (73113, 73119); (73130, 73439); (73465, 73647); (73649, 73663);
   (73714, 73726); (74650, 74751); (74863, 74863); (74869, 74879);
   (75076, 77711); (77811, 77823); (78895, 82943); (83527, 92159);
   (92729, 92735); (92767, 92767); (92778, 92781); (92863, 92863);
   (92874, 92879); (92910, 92911); (92918, 92927); (92998, 93007);
   (93018, 93018); (93026, 93026); (93048, 93052); (93072, 93759);
   (93851, 93951); (94027, 94030); (94088, 94094); (94112, 94175);
   (94181, 94191); (94194, 94207); (100344, 100351); (101590, 101631);
   (101641, 110575); (110580, 110580); (110588, 110588); (110591, 110591);
   (110883, 110927); (110931, 110947); (110952, 110959); (111356, 113663);
   (113771, 113775); (113789, 113791); (113801, 113807); (113818, 113819);
   (113824, 118527); (118574, 118575); (118599, 118607); (118724, 118783);
   (119030, 119039); (119079, 119080); (119155, 119162); (119275, 119295);
   (119366, 119519); (119540, 119551); (119639, 119647); (119673, 119807);
   (119893, 119893); (119965, 119965); (119968, 119969); (119971, 119972);
   (119975, 119976); (119981, 119981); (119994, 119994); (119996, 119996);
   (120004, 120004); (120070, 120070); (120075, 120076); (120085, 120085);
   (120093, 120093); (120122, 120122); (120127, 120127); (120133, 120133);
   (120135, 120137); (120145, 120145); (120486, 120487); (120780, 120781);
   (121484, 121498); (121504, 121504); (121520, 122623); (122655, 122879);
   (122887, 122887); (122905, 122906); (122914, 122914); (122917, 122917);
   (122923, 123135); (123181, 123183); (123198, 123199); (123210, 123213);
   (123216, 123535); (123567, 123583); (123642, 123646); (123648, 124895);
   (124903, 124903); (124908, 124908); (124911, 124911); (124927, 124927);
   (125125, 125126); (125143, 125183); (125260, 125263); (125274, 125277);
   (125280, 126064); (126133, 126208); (126270, 126463); (126468, 126468);
   (126496, 126496); (126499, 126499); (126501, 126502); (126504, 126504);
   (126515, 126515); (126520, 126520); (126522, 126522); (126524, 126529);
   (126531, 126534); (126536, 126536); (126538, 126538); (126540, 126540);
   (126544, 126544); (126547, 126547); (126549, 126550); (126552, 126552);
   (126554, 126554); (126556, 126556); (126558, 126558); (126560, 126560);
   (126563, 126563); (126565, 126566); (126571, 126571); (126579, 126579);
   (126584, 126584); (126589, 126589); (126591, 126591); (126602, 126602);
   (126620, 126624); (126628, 126628); (126634, 126634); (126652, 126703);
   (126706, 126975); (127020, 127023); (127124, 127135); (127151, 127152);
   (127168, 127168); (127184, 127184); (127222, 127231); (127406, 127461);
   (127491, 127503); (127548, 127551); (127561, 127567); (127570, 127583);
   (127590, 127743); (128728, 128732); (128749, 128751); (128765, 128767);
   (128884, 128895); (128985, 128991); (129004, 129007); (129009, 129023);
   (129036, 129039); (129096, 129103); (129114, 129119); (129160, 129167);
   (129198, 129199); (129202, 129279); (129620, 129631); (129646, 129647);
   (129653, 129655); (129661, 129663); (129671, 129679); (129709, 129711);
   (129723, 129727); (129734, 129743); (129754, 129759); (129768, 129775);
   (129783, 129791); (129939, 129939); (129995, 130031); (130042, 131071);
   (173792, 173823); (177977, 177983); (178206, 178207); (183970, 183983);
   (191457, 194559); (195102, 196607); (201547, 917759); (918000, 1114111)
  ])%N.

Definition printable (cp : N) : bool :=
  negb (existsb (fun r => (fst r <=? cp)%N && (cp <=? snd r)%N) non_printable_ranges).

(** The escape of a character from U+0080 on that is not printable. *)
Definition escape_wide (cp : N) : string :=
  if (cp <? 256)%N then "\x" ++ hex 2 cp
  else if (cp <? 65536)%N then "\u" ++ hex 4 cp
  else "\U" ++ hex 8 cp.

Definition escape_character (q : ascii) (char : string) : string :=
  match code_point char with
  | Some cp =>
      if (cp <? 128)%N then escape_char q (ascii_of_N cp)
      else if printable cp then char
      else escape_wide cp
  | None => char
  end.

Definition repr_str (s : string) : string :=
  let q := if has_char squote s && negb (has_char dquote s) then dquote else squote in
  String q (String.concat "" (map (escape_character q) (chars s))) ++ String q EmptyString.

Definition str_of_int (z : Z) : string := NilZero.string_of_int (Z.to_int z).

Fixpoint repr (v : value) : string :=
  match v with
  | JNull => "None"
  | JBool true => "True"
  | JBool false => "False"
  | JInt z => str_of_int z
  | JFloat r => r
  | JStr s => repr_str s
  | JList l => "[" ++ String.concat ", " (map repr l) ++ "]"
  | JDict d =>
      "{" ++ String.concat ", "
               (map (fun kv => repr_str (fst kv) ++ ": " ++ repr (snd kv)) d) ++ "}"
  end.

(** [str(v)], which is what an f-string field [{v}] inserts. *)
Definition str (v : value) : string :=
  match v with
  | JStr s => s
  | _ => repr v
  end.

(** [str(e)] for an exception. *)
Definition exn_str (e : exn) : string :=
  match e with
  | KeyError key => repr_str key
  | TypeError msg | AttributeError msg | RequestError msg
  | HTTPStatusError msg | JSONDecodeError msg => msg
  end.

End Py.
Import Py.

(** ** The HTTP client, the log and the monad of the tools *)

(** What [client.get(url, headers=headers, timeout=timeout)] is called with. *)
Record request : Type := {
  req_url : value;
  req_headers : list (string * string);
  req_timeout : float
}.

(** An [httpx.Response], as far as the helper looks at it: the status code,
    the text of the [HTTPStatusError] that [raise_for_status] builds for it
    when the code is not 2xx, and what [json()] does: return the parsed body,
    or raise. *)
Record response : Type := {
  status_code : Z;
  status_error : string;
  body_json : result value
}.

Inductive get_outcome : Type :=
| GetRaises (e : exn)
| GetReturns (res : response).

(** The network: what the n-th [client.get] of a run does when it is called
    with a request. *)
Definition network : Type := nat -> request -> get_outcome.

(** What a run leaves behind: the [client.get] calls it made and the lines it
    logged, both in order. *)
Record world : Type := {
  requests : list request;
  log : list string
}.

Definition M (A : Type) : Type := network -> world -> result A * world.

Definition ret {A} (a : A) : M A := fun _ w => (Ok a, w).

Definition raise {A} (e : exn) : M A := fun _ w => (Raise e, w).

Definition lift {A} (r : result A) : M A := fun _ w => (r, w).

Definition mbind {A B} (c : M A) (k : A -> M B) : M B :=
  fun net w =>
    match c net w with
    | (Ok a, w') => k a net w'
    | (Raise e, w') => (Raise e, w')
    end.

Notation "x <<- c ;; k" := (mbind c (fun x => k))
  (at level 61, c at next level, right associativity).

(** [try: body / except Exception as e: handler e]. *)
Definition try_except {A} (body : M A) (handler : exn -> M A) : M A :=
  fun net w =>
    match body net w with
    | (Ok a, w') => (Ok a, w')
    | (Raise e, w') => handler e net w'
    end.

Definition client_get (url : value) (headers : list (string * string))
    (timeout : float) : M response :=
  fun net w =>
    let req := {| req_url := url; req_headers := headers; req_timeout := timeout |} in
    let w' := {| requests := requests w ++ [req]; log := log w |} in
    match net (length (requests w)) req with
    | GetRaises e => (Raise e, w')
    | GetReturns res => (Ok res, w')
    end.

Definition is_success (res : response) : bool :=
  (200 <=? status_code res)%Z && (status_code res <=? 299)%Z.

Definition raise_for_status (res : response) : M unit :=
  if is_success res then ret tt else raise (HTTPStatusError (status_error res)).

Definition logging_error (msg : string) : M unit :=
  fun _ w => (Ok tt, {| requests := requests w; log := log w ++ [msg] |}).

(** ** The program *)

Definition NWS_API_BASE : string := "https://api.weather.gov".
Definition USER_AGENT : string := "weather-app/1.0".

(** Lines 13-26.  The function ends after the handler, so a failed request
    returns [None]. *)
Definition make_nws_request (url : value) : M value :=
  let headers := [("User-Agent", USER_AGENT); ("Accept", "application/geo+json")] in
  let timeout := "30.0" in
  try_except
    (res <<- client_get url headers timeout ;;
     _ <<- raise_for_status res ;;
     lift (body_json res))
    (fun e =>
       _ <<- logging_error ("Error occurred while making NWS request to "
                            ++ str url ++ ": " ++ exn_str e) ;;
       ret JNull).

(** Lines 29-38. *)
Definition format_alert (feature : value) : result string :=
  props <- getitem feature "properties" ;;
  event <- get props "event" (JStr "Unknown") ;;
  areaDesc <- get props "areaDesc" (JStr "Unknown") ;;
  severity <- get props "severity" (JStr "Unknown") ;;
  description <- get props "description" (JStr "No description available") ;;
  instruction <- get props "instruction" (JStr "No specific instructions provided") ;;
  Ok (NL ++ "Event: " ++ str event
      ++ NL ++ "Area: " ++ str areaDesc
      ++ NL ++ "Severity: " ++ str severity
      ++ NL ++ "Description: " ++ str description
      ++ NL ++ "Instructions: " ++ str instruction
      ++ NL).

(** The separator both tools join their blocks with. *)
Definition separator : string := NL ++ "---" ++ NL.

(** Lines 50-57: what [get_alerts] makes of the fetch result [data]. *)
Definition alerts_text (data : value) : result string :=
  unable <- por (Ok (negb (truthy data)))
                (has <- contains "features" data ;; Ok (negb has)) ;;
  if unable then Ok "Unable to fetch alerts or no alerts found." else
  features <- getitem data "features" ;;
  if negb (truthy features) then Ok "No active alerts for this state." else
  features <- getitem data "features" ;;
  elements <- iter features ;;
  alerts <- map_result format_alert elements ;;
  Ok (String.concat separator alerts).

(** Lines 41-57. *)
Definition get_alerts (state : string) : M string :=
  let url := NWS_API_BASE ++ "/alerts/active/area/" ++ state in
  data <<- make_nws_request (JStr url) ;;
  lift (alerts_text data).

(** The degree sign of line 90, U+00B0, in UTF-8. *)
Definition degree : string := String "194"%char (String "176"%char EmptyString).

(** Lines 88-93: the block the loop body appends for one period. *)
Definition period_block (period : value) : result string :=
  name <- getitem period "name" ;;
  temperature <- getitem period "temperature" ;;
  temperatureUnit <- getitem period "temperatureUnit" ;;
  windSpeed <- getitem period "windSpeed" ;;
  windDirection <- getitem period "windDirection" ;;
  detailedForecast <- getitem period "detailedForecast" ;;
  Ok (NL ++ str name
      ++ NL ++ "Temperature: " ++ str temperature ++ degree ++ str temperatureUnit
      ++ NL ++ "Wind: " ++ str windSpeed ++ " " ++ str windDirection
      ++ NL ++ "Forecast: " ++ str detailedForecast
      ++ NL).

(** Lines 87-93: the [for] loop, appending to [forecasts]. *)
Fixpoint for_periods (forecasts : list string) (periods : list value)
    : result (list string) :=
  match periods with
  | [] => Ok forecasts
  | period :: rest =>
      block <- period_block period ;;
      for_periods (forecasts ++ [block])%list rest
  end.

(** Lines 78-95: what [get_forecast] makes of the second fetch result. *)
Definition forecast_text (forecast_data : value) : result string :=
  if negb (truthy forecast_data)
  then Ok "Unable to fetch forecast data for this location." else
  invalid <- por (has <- contains "properties" forecast_data ;; Ok (negb has))
                 (props <- getitem forecast_data "properties" ;;
                  has <- contains "periods" props ;; Ok (negb has)) ;;
  if invalid
  then Ok "Invalid forecast data received: missing period information." else
  props <- getitem forecast_data "properties" ;;
  periods <- getitem props "periods" ;;
  let periods_count := 5%nat in
  first <- slice_to periods_count periods ;;
  elements <- iter first ;;
  forecasts <- for_periods [] elements ;;
  Ok (String.concat separator forecasts).

(** Lines 60-95. *)
Definition get_forecast (latitude longitude : float) : M string :=
  let points_url :=
    NWS_API_BASE ++ "/points/" ++ str (JFloat latitude) ++ "," ++ str (JFloat longitude) in
  points_data <<- make_nws_request (JStr points_url) ;;
  if negb (truthy points_data)
  then ret "Unable to fetch points data for this location." else
  invalid <<- lift (por (has <- contains "properties" points_data ;; Ok (negb has))
                        (props <- getitem points_data "properties" ;;
                         has <- contains "forecast" props ;; Ok (negb has))) ;;
  if invalid
  then ret "Invalid points data received: missing forecast information." else
  forecast_url <<- lift (props <- getitem points_data "properties" ;;
                         getitem props "forecast") ;;
  forecast_data <<- make_nws_request forecast_url ;;
  lift (forecast_text forecast_data).

(** ** Vocabulary of the statements *)

Definition start : world := {| requests := []; log := [] |}.

(** The request the helper makes for [url]. *)
Definition nws_request (url : value) : request :=
  {| req_url := url;
     req_headers := [("User-Agent", "weather-app/1.0"); ("Accept", "application/geo+json")];
     req_timeout := "30.0" |}.

Definition sent (w : world) (req : request) : world :=
  {| requests := requests w ++ [req]; log := log w |}.

Definition logged (w : world) (line : string) : world :=
  {| requests := requests w; log := log w ++ [line] |}.

(** The world after a request for [url] that failed with [e]. *)
Definition failed (w : world) (url : value) (e : exn) : world :=
  logged (sent w (nws_request url))
         ("Error occurred while making NWS request to " ++ str url ++ ": " ++ exn_str e).

Definition alerts_url (state : string) : value :=
  JStr ("https://api.weather.gov/alerts/active/area/" ++ state).

Definition points_url (latitude longitude : float) : value :=
  JStr ("https://api.weather.gov/points/" ++ latitude ++ "," ++ longitude).

(** A network that answers the n-th call with the n-th outcome of a list,
    whatever the request, and fails once the list is used up. *)
Definition scripted (answers : list get_outcome) : network :=
  fun n _ => nth n answers (GetRaises (RequestError "All connection attempts failed")).

Definition ok_json (v : value) : get_outcome :=
  GetReturns {| status_code := 200; status_error := ""; body_json := Ok v |}.

(** An alert-feature record: an object whose [properties] is an object. *)
Definition is_feature (v : value) : bool :=
  match v with
  | JDict d =>
      match lookup "properties" d with
      | Some (JDict _) => true
      | _ => false
      end
  | _ => false
  end.

(** The text shown for a field of [props]: its value when the key is there,
    the placeholder when it is not. *)
Definition field (props : list (string * value)) (key placeholder : string) : string :=
  match lookup key props with
  | Some v => str v
  | None => placeholder
  end.

(** The block of five labelled lines. *)
Definition alert_block (event area severity description instructions : string) : string :=
  NL ++ "Event: " ++ event
  ++ NL ++ "Area: " ++ area
  ++ NL ++ "Severity: " ++ severity
  ++ NL ++ "Description: " ++ description
  ++ NL ++ "Instructions: " ++ instructions
  ++ NL.

(** [props] without the key [key]. *)
Definition without (key : string) (props : list (string * value)) : list (string * value) :=
  filter (fun kv => negb (String.eqb (fst kv) key)) props.

(** The fetch results, absent or an object, that [get_alerts] can format: no
    [features] key, a falsy [features], or a [features] list of alert-feature
    records. *)
Definition alerts_shaped (data : value) : bool :=
  match data with
  | JNull => true
  | JDict d =>
      match lookup "features" d with
      | None => true
      | Some (JList features) => forallb is_feature features
      | Some features => negb (truthy features)
      end
  | _ => false
  end.

(** The object [d] lacks [outer.inner]: it has no [outer] key, or its
    [outer] is an object with no [inner] key. *)
Definition lacks (d : list (string * value)) (outer inner : string) : Prop :=
  lookup outer d = None \/
  exists p, lookup outer d = Some (JDict p) /\ lookup inner p = None.

(** The fields line 89-92 read from a period, in the order they are read. *)
Definition period_fields : list string :=
  ["name"; "temperature"; "temperatureUnit"; "windSpeed"; "windDirection";
   "detailedForecast"].

(** A period record with the six fields, for the examples. *)
Definition period_named (name : string) : value :=
  JDict [("name", JStr name); ("temperature", JInt 72); ("temperatureUnit", JStr "F");
         ("windSpeed", JStr "5 mph"); ("windDirection", JStr "SW");
         ("detailedForecast", JStr "Clear.")].

Definition block_named (name : string) : string :=
  NL ++ name
  ++ NL ++ "Temperature: 72" ++ degree ++ "F"
  ++ NL ++ "Wind: 5 mph SW"
  ++ NL ++ "Forecast: Clear."
  ++ NL.

(** A points response that names the forecast URL [url], and a forecast
    response with the given periods. *)
Definition points_response (url : value) : value :=
  JDict [("properties", JDict [("forecast", url)])].

Definition forecast_response (periods : list value) : value :=
  JDict [("properties", JDict [("periods", JList periods)])].

(** The exception a request fails with, when it fails: what [client.get]
    raised, the [HTTPStatusError] of a status that is not 2xx, or what
    [json()] raised on a 2xx response. *)
Definition failure (outcome : get_outcome) : option exn :=
  match outcome with
  | GetRaises e => Some e
  | GetReturns res =>
      if is_success res
      then match body_json res with
           | Ok _ => None
           | Raise e => Some e
           end
      else Some (HTTPStatusError (status_error res))
  end.

(** The line the helper logs for a request for [url] that failed with [e]. *)
Definition error_line (url : value) (e : exn) : string :=
  "Error occurred while making NWS request to " ++ str url ++ ": " ++ exn_str e.

(** The headers and the timeout of every request. *)
Definition nws_headers : list (string * string) :=
  [("User-Agent", "weather-app/1.0"); ("Accept", "application/geo+json")].

(** The keys [format_alert] reads from [properties]. *)
Definition alert_fields : list string :=
  ["event"; "areaDesc"; "severity"; "description"; "instruction"].

Definition has_key (fields : list (string * value)) (key : string) : bool :=
  match lookup key fields with
  | Some _ => true
  | None => false
  end.

(** A complete period record: an object with the six fields. *)
Definition is_period (v : value) : bool :=
  match v with
  | JDict fields => forallb (has_key fields) period_fields
  | _ => false
  end.

(** The block of a period. *)
Definition forecast_block (name temperature unit speed direction forecast : string)
    : string :=
  NL ++ name
  ++ NL ++ "Temperature: " ++ temperature ++ degree ++ unit
  ++ NL ++ "Wind: " ++ speed ++ " " ++ direction
  ++ NL ++ "Forecast: " ++ forecast
  ++ NL.

(** ** The request helper *)

Lemma make_nws_request_eq (url : value) (net : network) (w : world) :
  make_nws_request url net w =
  match net (length (requests w)) (nws_request url) with
  | GetRaises e => (Ok JNull, failed w url e)
  | GetReturns res =>
      if is_success res
      then match body_json res with
           | Ok v => (Ok v, sent w (nws_request url))
           | Raise e => (Ok JNull, failed w url e)
           end
      else (Ok JNull, failed w url (HTTPStatusError (status_error res)))
  end.
Proof.
  unfold make_nws_request, try_except, mbind, client_get, raise_for_status.
  change {| req_url := url;
            req_headers := [("User-Agent", USER_AGENT); ("Accept", "application/geo+json")];
            req_timeout := "30.0" |} with (nws_request url).
  destruct (net (length (requests w)) (nws_request url)) as [e | res]; [reflexivity |].
  destruct (is_success res); [| reflexivity].
  unfold ret, lift. destruct (body_json res); reflexivity.
Qed.

Lemma is_success_2xx (res : response) :
  is_success res = true <-> (200 <= status_code res <= 299)%Z.
Proof. unfold is_success. rewrite andb_true_iff, !Z.leb_le. tauto. Qed.

Lemma make_nws_request_total (url : value) (net : network) (w : world) :
  exists v w', make_nws_request url net w = (Ok v, w').
Proof.
  rewrite make_nws_request_eq.
  destruct (net (length (requests w)) (nws_request url)) as [e | res]; [eauto |].
  destruct (is_success res); [| eauto].
  destruct (body_json res); eauto.
Qed.

Lemma make_nws_request_requests (url : value) (net : network) (w w' : world)
    (r : result value) :
  make_nws_request url net w = (r, w') ->
  requests w' = (requests w ++ [nws_request url])%list.
Proof.
  rewrite make_nws_request_eq.
  destruct (net (length (requests w)) (nws_request url)) as [e | res].
  - now intros [= _ <-].
  - destruct (is_success res); [| now intros [= _ <-]].
    destruct (body_json res); now intros [= _ <-].
Qed.

(** C3. [make_nws_request] never raises: on a 2xx response whose body parses
    it returns the parsed body and logs nothing; when [client.get] raises
    (network error, timeout), when the status is not 2xx and when the body
    is not JSON it logs one line and returns [None]. *)
Theorem make_nws_request_returns (url : value) (net : network) (w : world) :
  let outcome := net (length (requests w)) (nws_request url) in
  (forall res v,
      outcome = GetReturns res ->
      (200 <= status_code res <= 299)%Z ->
      body_json res = Ok v ->
      make_nws_request url net w = (Ok v, sent w (nws_request url))) /\
  (forall e,
      outcome = GetRaises e ->
      make_nws_request url net w = (Ok JNull, failed w url e)) /\
  (forall res,
      outcome = GetReturns res ->
      (status_code res < 200 \/ 299 < status_code res)%Z ->
      make_nws_request url net w
      = (Ok JNull, failed w url (HTTPStatusError (status_error res)))) /\
  (forall res e,
      outcome = GetReturns res ->
      (200 <= status_code res <= 299)%Z ->
      body_json res = Raise e ->
      make_nws_request url net w = (Ok JNull, failed w url e)) /\
  (exists v w', make_nws_request url net w = (Ok v, w')).
Proof.
  intros outcome. subst outcome. rewrite make_nws_request_eq.
  repeat split.
  - intros res v -> Hs ->. apply is_success_2xx in Hs. now rewrite Hs.
  - now intros e ->.
  - intros res -> Hs.
    destruct (is_success res) eqn:E; [| reflexivity].
    apply is_success_2xx in E. lia.
  - intros res e -> Hs ->. apply is_success_2xx in Hs. now rewrite Hs.
  - rewrite <- make_nws_request_eq. apply make_nws_request_total.
Qed.

Lemma make_nws_request_returns_witness :
  make_nws_request (JStr "u") (scripted [ok_json (JDict [])]) start
  = (Ok (JDict []), sent start (nws_request (JStr "u"))).
Proof.
  apply (proj1 (make_nws_request_returns (JStr "u") (scripted [ok_json (JDict [])]) start)
           {| status_code := 200; status_error := ""; body_json := Ok (JDict []) |}).
  - reflexivity.
  - simpl. lia.
  - reflexivity.
Defined.

(** ** The alert formatter *)

Lemma format_alert_props (feature props : list (string * value)) :
  lookup "properties" feature = Some (JDict props) ->
  format_alert (JDict feature)
  = Ok (alert_block (field props "event" "Unknown")
                    (field props "areaDesc" "Unknown")
                    (field props "severity" "Unknown")
                    (field props "description" "No description available")
                    (field props "instruction" "No specific instructions provided")).
Proof.
  intros H. unfold format_alert, getitem. rewrite H.
  unfold bind at 1. unfold get, field, alert_block.
  destruct (lookup "event" props), (lookup "areaDesc" props), (lookup "severity" props),
    (lookup "description" props), (lookup "instruction" props); reflexivity.
Qed.

Lemma lookup_without_same (key : string) (props : list (string * value)) :
  lookup key (without key props) = None.
Proof.
  induction props as [| [k v] props IH]; [reflexivity |].
  unfold without in *. simpl.
  destruct (String.eqb k key) eqn:E; simpl; [exact IH |].
  now rewrite E.
Qed.

Lemma lookup_without_other (key key' : string) (props : list (string * value)) :
  key' <> key -> lookup key' (without key props) = lookup key' props.
Proof.
  intros Hne. induction props as [| [k v] props IH]; [reflexivity |].
  unfold without in *. simpl.
  destruct (String.eqb k key) eqn:E; simpl.
  - apply String.eqb_eq in E. subst k.
    destruct (String.eqb key key') eqn:E'; [| exact IH].
    apply String.eqb_eq in E'. congruence.
  - now rewrite IH.
Qed.

Lemma field_without_same (key placeholder : string) (props : list (string * value)) :
  field (without key props) key placeholder = placeholder.
Proof. unfold field. now rewrite lookup_without_same. Qed.

Lemma field_without_other (key key' placeholder : string) (props : list (string * value)) :
  key' <> key -> field (without key props) key' placeholder = field props key' placeholder.
Proof. intros H. unfold field. now rewrite lookup_without_other. Qed.

(** C2. [format_alert] is a function of the record alone and fails on no
    alert-feature record: for a record whose [properties] is the object
    [props] it returns the block of five labelled lines, each field showing
    its value when the key is present and its placeholder when it is absent
    ("Unknown" for event, areaDesc and severity, the two explanatory texts
    for description and instruction); taking one of the five keys away
    changes the line of that field to its placeholder and leaves the four
    others as they were. *)
Theorem format_alert_total (feature props : list (string * value)) :
  lookup "properties" feature = Some (JDict props) ->
  let event := field props "event" "Unknown" in
  let area := field props "areaDesc" "Unknown" in
  let severity := field props "severity" "Unknown" in
  let description := field props "description" "No description available" in
  let instructions := field props "instruction" "No specific instructions provided" in
  let formats_without key block :=
    forall feature',
      lookup "properties" feature' = Some (JDict (without key props)) ->
      format_alert (JDict feature') = Ok block in
  format_alert (JDict feature)
  = Ok (alert_block event area severity description instructions) /\
  formats_without "event"
    (alert_block "Unknown" area severity description instructions) /\
  formats_without "areaDesc"
    (alert_block event "Unknown" severity description instructions) /\
  formats_without "severity"
    (alert_block event area "Unknown" description instructions) /\
  formats_without "description"
    (alert_block event area severity "No description available" instructions) /\
  formats_without "instruction"
    (alert_block event area severity description "No specific instructions provided").
Proof.
  intros H. cbv zeta.
  split; [now apply format_alert_props |].
  repeat split; intros feature' H'; rewrite (format_alert_props _ _ H');
    rewrite field_without_same, !field_without_other by discriminate;
    reflexivity.
Qed.

Lemma format_alert_total_witness :
  format_alert
    (JDict [("id", JStr "urn:oid:2.49.0.1.840.0.1");
            ("properties", JDict [("event", JStr "Flood Warning");
                                  ("severity", JNull);
                                  ("areaDesc", JStr "XX County")])])
  = Ok (alert_block "Flood Warning" "XX County" "None"
          "No description available" "No specific instructions provided").
Proof.
  exact (proj1 (format_alert_total
                  [("id", JStr "urn:oid:2.49.0.1.840.0.1");
                   ("properties", JDict [("event", JStr "Flood Warning");
                                         ("severity", JNull);
                                         ("areaDesc", JStr "XX County")])]
                  [("event", JStr "Flood Warning"); ("severity", JNull);
                   ("areaDesc", JStr "XX County")]
                  eq_refl)).
Defined.

(** ** [get_alerts] *)

Lemma get_alerts_run (state : string) (net : network) (w w' : world) (data : value) :
  make_nws_request (alerts_url state) net w = (Ok data, w') ->
  get_alerts state net w = (alerts_text data, w').
Proof.
  intros H. unfold get_alerts, mbind.
  change (JStr (NWS_API_BASE ++ "/alerts/active/area/" ++ state)) with (alerts_url state).
  now rewrite H.
Qed.

Lemma alerts_text_falsy (data : value) :
  truthy data = false ->
  alerts_text data = Ok "Unable to fetch alerts or no alerts found.".
Proof. intros H. unfold alerts_text, por. now rewrite H. Qed.

Lemma alerts_text_dict (d : list (string * value)) :
  alerts_text (JDict d) =
  match lookup "features" d with
  | None => Ok "Unable to fetch alerts or no alerts found."
  | Some features =>
      if negb (truthy features) then Ok "No active alerts for this state." else
      elements <- iter features ;;
      alerts <- map_result format_alert elements ;;
      Ok (String.concat separator alerts)
  end.
Proof.
  destruct d as [| kv d]; [reflexivity |].
  unfold alerts_text, por, contains, getitem.
  cbn [truthy negb bind].
  destruct (lookup "features" (kv :: d)); reflexivity.
Qed.

Lemma map_result_Forall2 {A B} (f : A -> result B) (l : list A) (ys : list B) :
  map_result f l = Ok ys <-> Forall2 (fun x y => f x = Ok y) l ys.
Proof.
  revert ys. induction l as [| x l IH]; intros ys; simpl.
  - split.
    + intros [= <-]. constructor.
    + intros H. now inversion H.
  - split.
    + destruct (f x) as [y | e] eqn:Ex; simpl; [| discriminate].
      destruct (map_result f l) as [ys' | e] eqn:El; simpl; [| discriminate].
      intros [= <-]. constructor; [exact Ex | now apply IH].
    + intros H. inversion H as [| x' y l' ys' Hx Hl]; subst.
      rewrite Hx. simpl. apply IH in Hl. now rewrite Hl.
Qed.

Lemma map_result_raises {A B} (f : A -> result B) (l : list A) (x : A) (e : exn) :
  In x l -> f x = Raise e -> exists e', map_result f l = Raise e'.
Proof.
  intros Hin Hx. induction l as [| a l IH]; [contradiction |].
  simpl. destruct (f a) as [y | e1] eqn:Ea; simpl; [| eauto].
  destruct Hin as [-> | Hin]; [congruence |].
  destruct (IH Hin) as [e' ->]. simpl. eauto.
Qed.

Lemma map_result_ok {A B} (f : A -> result B) (l : list A) :
  (forall x, In x l -> exists y, f x = Ok y) -> exists ys, map_result f l = Ok ys.
Proof.
  induction l as [| a l IH]; intros H; simpl; [eauto |].
  destruct (H a (or_introl eq_refl)) as [y ->]. simpl.
  destruct IH as [ys ->]; [intros x Hx; apply H; now right |].
  simpl. eauto.
Qed.

Lemma format_alert_ok_iff (feature : value) :
  (exists block, format_alert feature = Ok block) <-> is_feature feature = true.
Proof.
  split.
  - intros [block H]. destruct feature as [| | | | | |d]; try discriminate.
    unfold format_alert, getitem in H. simpl.
    destruct (lookup "properties" d) as [[| | | | | |props] |]; try discriminate.
    reflexivity.
  - intros H. destruct feature as [| | | | | |d]; try discriminate.
    simpl in H.
    destruct (lookup "properties" d) as [[| | | | | |props] |] eqn:E; try discriminate.
    rewrite (format_alert_props _ _ E). eauto.
Qed.

Lemma format_alert_raises (feature : value) :
  is_feature feature = false -> exists e, format_alert feature = Raise e.
Proof.
  intros H. destruct (format_alert feature) as [block | e] eqn:E; [| eauto].
  assert (is_feature feature = true) by (apply format_alert_ok_iff; eauto).
  congruence.
Qed.

Lemma split_chars_nonempty (s cur : string) :
  cur <> "" \/ s <> "" -> split_chars cur s <> [].
Proof.
  revert cur. induction s as [| c rest IH]; intros cur H; simpl.
  - destruct H as [H | H]; [| contradiction]. now destruct cur.
  - destruct (is_continuation c).
    + apply IH. left. now destruct cur.
    + intros E. apply app_eq_nil in E. destruct E as [_ E].
      revert E. apply IH. now left.
Qed.

Lemma chars_nonempty (s : string) : s <> "" -> chars s <> [].
Proof. intros H. apply split_chars_nonempty. now right. Qed.

Lemma map_result_forallb (features : list value) :
  (exists blocks, map_result format_alert features = Ok blocks)
  <-> forallb is_feature features = true.
Proof.
  rewrite forallb_forall. split.
  - intros [blocks H] f Hin.
    destruct (is_feature f) eqn:E; [reflexivity |].
    destruct (format_alert_raises f E) as [e He].
    destruct (map_result_raises _ _ _ _ Hin He) as [e' He']. congruence.
  - intros H. apply map_result_ok. intros f Hin.
    apply format_alert_ok_iff. now apply H.
Qed.

Lemma alerts_text_ok_iff (data : value) :
  data = JNull \/ (exists d, data = JDict d) ->
  (exists text, alerts_text data = Ok text) <-> alerts_shaped data = true.
Proof.
  intros [-> | [d ->]].
  { rewrite alerts_text_falsy by reflexivity. split; eauto. }
  rewrite alerts_text_dict. unfold alerts_shaped.
  destruct (lookup "features" d) as [features |]; [| split; eauto].
  destruct features as [| b | z | r | s | fs | kvs].
  - simpl. split; eauto.
  - destruct b; simpl; (split; [intros [text H]; (discriminate || reflexivity) | intros H; (discriminate || eauto)]).
  - destruct (truthy (JInt z)); simpl; (split; [intros [text H]; (discriminate || reflexivity) | intros H; (discriminate || eauto)]).
  - destruct (truthy (JFloat r)); simpl; (split; [intros [text H]; (discriminate || reflexivity) | intros H; (discriminate || eauto)]).
  - destruct (truthy (JStr s)) eqn:E; cbn [negb]; [| split; eauto].
    split; [| discriminate]. intros [text H]. exfalso.
    assert (Hs : s <> "").
    { intros ->. discriminate. }
    apply chars_nonempty in Hs. cbn [iter bind] in H.
    destruct (chars s) as [| c cs]; [contradiction | discriminate].
  - destruct fs as [| f fs]; [simpl; split; eauto |].
    cbn [truthy negb iter bind].
    rewrite <- map_result_forallb. split; intros [x H].
    + destruct (map_result format_alert (f :: fs)); [eauto | discriminate].
    + rewrite H. simpl. eauto.
  - destruct kvs as [| kv kvs]; [simpl; split; eauto |].
    simpl. split; [intros [text H] |]; discriminate.
Qed.

(** C1, as the code has it.  For a fetch result that is absent or an object,
    [get_alerts] returns a string exactly when the result is absent, has no
    [features] key, has a falsy [features], or has a [features] list whose
    every element is an object holding a [properties] object; on every other
    such result it raises. *)
Theorem get_alerts_returns_iff (state : string) (net : network) (w w' : world)
    (data : value) :
  make_nws_request (alerts_url state) net w = (Ok data, w') ->
  data = JNull \/ (exists d, data = JDict d) ->
  ((exists text, get_alerts state net w = (Ok text, w')) <-> alerts_shaped data = true) /\
  ((exists e, get_alerts state net w = (Raise e, w')) <-> alerts_shaped data = false).
Proof.
  intros Hfetch Hdata. rewrite (get_alerts_run _ _ _ _ _ Hfetch).
  pose proof (alerts_text_ok_iff data Hdata) as Hiff.
  destruct (alerts_text data) as [text | e] eqn:E.
  - assert (Hs : alerts_shaped data = true) by (apply Hiff; eauto).
    rewrite Hs. split; split; eauto; try discriminate.
    intros [e [=]].
  - destruct (alerts_shaped data) eqn:Hs.
    + destruct Hiff as [_ Hiff]. destruct (Hiff eq_refl) as [text [=]].
    + split; split; eauto; try discriminate.
      intros [text [=]].
Qed.

Lemma get_alerts_returns_iff_witness :
  exists text,
    get_alerts "XX"
      (scripted [ok_json (JDict [("features",
                                  JList [JDict [("properties", JDict [])]])])])
      start
    = (Ok text, sent start (nws_request (alerts_url "XX"))).
Proof.
  apply (proj1 (get_alerts_returns_iff "XX"
                  (scripted [ok_json (JDict [("features",
                                              JList [JDict [("properties", JDict [])]])])])
                  start _ _ eq_refl (or_intror (ex_intro _ _ eq_refl)))).
  reflexivity.
Defined.

(** C1, as the claim has it, fails: a response whose one feature has no
    [properties] makes [get_alerts] raise [KeyError] while it formats. *)
Lemma get_alerts_raises_on_bare_feature :
  get_alerts "XX" (scripted [ok_json (JDict [("features", JList [JDict []])])]) start
  = (Raise (KeyError "properties"), sent start (nws_request (alerts_url "XX"))).
Proof. reflexivity. Qed.

(** C5. [get_alerts] returns "Unable to fetch alerts or no alerts found."
    when the fetch result is absent or an object without a [features] key,
    and "No active alerts for this state." when [features] is there and
    empty; the two messages differ. *)
Theorem get_alerts_messages (state : string) (net : network) (w w' : world)
    (data : value) :
  make_nws_request (alerts_url state) net w = (Ok data, w') ->
  (data = JNull \/ (exists d, data = JDict d /\ lookup "features" d = None) ->
   get_alerts state net w = (Ok "Unable to fetch alerts or no alerts found.", w')) /\
  ((exists d, data = JDict d /\ lookup "features" d = Some (JList [])) ->
   get_alerts state net w = (Ok "No active alerts for this state.", w')) /\
  "Unable to fetch alerts or no alerts found." <> "No active alerts for this state.".
Proof.
  intros Hfetch. rewrite (get_alerts_run _ _ _ _ _ Hfetch).
  repeat split.
  - intros [-> | [d [-> H]]]; [reflexivity |].
    now rewrite alerts_text_dict, H.
  - intros [d [-> H]]. now rewrite alerts_text_dict, H.
  - discriminate.
Qed.

Lemma get_alerts_messages_witness :
  get_alerts "XX" (scripted [ok_json (JDict [("features", JList [])])]) start
  = (Ok "No active alerts for this state.", sent start (nws_request (alerts_url "XX"))).
Proof.
  apply (proj1 (proj2 (get_alerts_messages "XX"
                         (scripted [ok_json (JDict [("features", JList [])])])
                         start _ _ eq_refl))).
  exists [("features", JList [])]. split; reflexivity.
Defined.

(** C6. When the fetch result holds a non-empty [features] list,
    [get_alerts] formats every feature in order and joins the blocks with
    [separator], the line "---" between two newlines (and raises when the
    formatting of a feature does); for two features the result is the first
    block, the separator, the second block. *)
Theorem get_alerts_joins (state : string) (net : network) (w w' : world)
    (d : list (string * value)) (features : list value) :
  make_nws_request (alerts_url state) net w = (Ok (JDict d), w') ->
  lookup "features" d = Some (JList features) ->
  features <> [] ->
  get_alerts state net w
  = (blocks <- map_result format_alert features ;; Ok (String.concat separator blocks), w') /\
  (forall blocks,
      Forall2 (fun feature block => format_alert feature = Ok block) features blocks ->
      get_alerts state net w = (Ok (String.concat separator blocks), w')) /\
  (forall f1 f2 block1 block2,
      features = [f1; f2] ->
      format_alert f1 = Ok block1 ->
      format_alert f2 = Ok block2 ->
      get_alerts state net w = (Ok (block1 ++ NL ++ "---" ++ NL ++ block2), w')).
Proof.
  intros Hfetch Hd Hne. rewrite (get_alerts_run _ _ _ _ _ Hfetch).
  assert (Heq : alerts_text (JDict d)
                = (blocks <- map_result format_alert features ;;
                   Ok (String.concat separator blocks))).
  { rewrite alerts_text_dict, Hd. destruct features; [contradiction | reflexivity]. }
  rewrite Heq. split; [reflexivity | split].
  - intros blocks H. apply map_result_Forall2 in H. now rewrite H.
  - intros f1 f2 block1 block2 -> H1 H2. simpl. now rewrite H1, H2.
Qed.

Lemma get_alerts_joins_witness :
  get_alerts "XX"
    (scripted [ok_json (JDict [("features",
                                JList [JDict [("properties", JDict [("event", JStr "Flood Warning")])];
                                       JDict [("properties", JDict [("event", JStr "Heat Advisory")])]])])])
    start
  = (Ok (alert_block "Flood Warning" "Unknown" "Unknown"
           "No description available" "No specific instructions provided"
         ++ NL ++ "---" ++ NL
         ++ alert_block "Heat Advisory" "Unknown" "Unknown"
              "No description available" "No specific instructions provided"),
     sent start (nws_request (alerts_url "XX"))).
Proof.
  apply (proj2 (proj2 (get_alerts_joins "XX"
                         (scripted [ok_json (JDict [("features",
                                JList [JDict [("properties", JDict [("event", JStr "Flood Warning")])];
                                       JDict [("properties", JDict [("event", JStr "Heat Advisory")])]])])])
                         start _ _ _ eq_refl eq_refl ltac:(discriminate)))
           _ _ _ _ eq_refl eq_refl eq_refl).
Defined.

(** ** [get_forecast] *)

Lemma get_forecast_run (latitude longitude : float) (net : network) (w w1 : world)
    (points_data : value) :
  make_nws_request (points_url latitude longitude) net w = (Ok points_data, w1) ->
  get_forecast latitude longitude net w =
  if negb (truthy points_data)
  then (Ok "Unable to fetch points data for this location.", w1)
  else
    match por (has <- contains "properties" points_data ;; Ok (negb has))
              (props <- getitem points_data "properties" ;;
               has <- contains "forecast" props ;; Ok (negb has)) with
    | Raise e => (Raise e, w1)
    | Ok true => (Ok "Invalid points data received: missing forecast information.", w1)
    | Ok false =>
        match (props <- getitem points_data "properties" ;; getitem props "forecast") with
        | Raise e => (Raise e, w1)
        | Ok forecast_url =>
            match make_nws_request forecast_url net w1 with
            | (Ok forecast_data, w2) => (forecast_text forecast_data, w2)
            | (Raise e, w2) => (Raise e, w2)
            end
        end
    end.
Proof.
  intros H. unfold get_forecast.
  change (JStr (NWS_API_BASE ++ "/points/" ++ str (JFloat latitude) ++ ","
                ++ str (JFloat longitude)))
    with (points_url latitude longitude).
  unfold mbind at 1. rewrite H.
  destruct (negb (truthy points_data)); [reflexivity |].
  unfold mbind at 1. unfold lift at 1.
  destruct (por _ _) as [[|] | e]; [reflexivity | | reflexivity].
  unfold mbind at 1. unfold lift at 1.
  destruct (props <- getitem points_data "properties" ;; getitem props "forecast")
    as [forecast_url | e]; [| reflexivity].
  unfold mbind, lift.
  destruct (make_nws_request forecast_url net w1) as [[forecast_data | e] w2]; reflexivity.
Qed.

Lemma get_forecast_falsy (latitude longitude : float) (net : network) (w w1 : world)
    (points_data : value) :
  make_nws_request (points_url latitude longitude) net w = (Ok points_data, w1) ->
  truthy points_data = false ->
  get_forecast latitude longitude net w
  = (Ok "Unable to fetch points data for this location.", w1).
Proof. intros H Hf. rewrite (get_forecast_run _ _ _ _ _ _ H). now rewrite Hf. Qed.

Lemma get_forecast_lacks (latitude longitude : float) (net : network) (w w1 : world)
    (d : list (string * value)) :
  make_nws_request (points_url latitude longitude) net w = (Ok (JDict d), w1) ->
  d <> [] ->
  lacks d "properties" "forecast" ->
  get_forecast latitude longitude net w
  = (Ok "Invalid points data received: missing forecast information.", w1).
Proof.
  intros H Hne Hl. rewrite (get_forecast_run _ _ _ _ _ _ H).
  destruct d as [| kv d]; [contradiction |].
  cbn [truthy negb]. unfold por, contains, getitem.
  destruct Hl as [-> | [p [-> Hp]]]; [reflexivity |].
  cbn [bind negb]. now rewrite Hp.
Qed.

Lemma get_forecast_second (latitude longitude : float) (net : network) (w w1 w2 : world)
    (d props : list (string * value)) (forecast_url forecast_data : value) :
  make_nws_request (points_url latitude longitude) net w = (Ok (JDict d), w1) ->
  lookup "properties" d = Some (JDict props) ->
  lookup "forecast" props = Some forecast_url ->
  make_nws_request forecast_url net w1 = (Ok forecast_data, w2) ->
  get_forecast latitude longitude net w = (forecast_text forecast_data, w2).
Proof.
  intros H Hd Hp H2. rewrite (get_forecast_run _ _ _ _ _ _ H).
  destruct d as [| kv d]; [discriminate |].
  cbn [truthy negb]. unfold por, contains, getitem.
  rewrite Hd. cbn [bind negb]. rewrite Hp. cbn [bind negb].
  now rewrite H2.
Qed.

Lemma forecast_text_lacks (d : list (string * value)) :
  d <> [] ->
  lacks d "properties" "periods" ->
  forecast_text (JDict d)
  = Ok "Invalid forecast data received: missing period information.".
Proof.
  intros Hne Hl. destruct d as [| kv d]; [contradiction |].
  unfold forecast_text. cbn [truthy negb]. unfold por, contains, getitem.
  destruct Hl as [-> | [p [-> Hp]]]; [reflexivity |].
  cbn [bind negb]. now rewrite Hp.
Qed.

Lemma for_periods_map_result (forecasts : list string) (periods : list value) :
  for_periods forecasts periods
  = (blocks <- map_result period_block periods ;; Ok (forecasts ++ blocks)%list).
Proof.
  revert forecasts. induction periods as [| period rest IH]; intros forecasts; simpl.
  - now rewrite app_nil_r.
  - destruct (period_block period) as [block | e]; [| reflexivity].
    simpl. rewrite IH.
    destruct (map_result period_block rest) as [blocks | e]; [| reflexivity].
    simpl. now rewrite <- app_assoc.
Qed.

Lemma forecast_text_periods (d props : list (string * value)) (periods : list value) :
  lookup "properties" d = Some (JDict props) ->
  lookup "periods" props = Some (JList periods) ->
  forecast_text (JDict d)
  = (blocks <- map_result period_block (firstn 5 periods) ;;
     Ok (String.concat separator blocks)).
Proof.
  intros Hd Hp. destruct d as [| kv d]; [discriminate |].
  unfold forecast_text. cbn [truthy negb]. unfold por, contains, getitem.
  rewrite Hd. cbn [bind negb]. rewrite Hp. cbn [bind negb slice_to iter].
  rewrite for_periods_map_result.
  destruct (map_result period_block (firstn 5 periods)); reflexivity.
Qed.

(** C4, as the code has it.  [get_forecast] returns "Unable to fetch points
    data for this location." when the points fetch result is absent or the
    empty object, "Invalid points data received: missing forecast
    information." when it is a non-empty object that lacks
    [properties.forecast], "Unable to fetch forecast data for this location."
    when the forecast fetch result is absent or the empty object, and
    "Invalid forecast data received: missing period information." when it is
    a non-empty object that lacks [properties.periods]. *)
Theorem get_forecast_messages (latitude longitude : float) (net : network)
    (w w1 : world) (points_data : value) :
  make_nws_request (points_url latitude longitude) net w = (Ok points_data, w1) ->
  (points_data = JNull \/ points_data = JDict [] ->
   get_forecast latitude longitude net w
   = (Ok "Unable to fetch points data for this location.", w1)) /\
  (forall d,
      points_data = JDict d -> d <> [] -> lacks d "properties" "forecast" ->
      get_forecast latitude longitude net w
      = (Ok "Invalid points data received: missing forecast information.", w1)) /\
  (forall d props forecast_url forecast_data w2,
      points_data = JDict d ->
      lookup "properties" d = Some (JDict props) ->
      lookup "forecast" props = Some forecast_url ->
      make_nws_request forecast_url net w1 = (Ok forecast_data, w2) ->
      (forecast_data = JNull \/ forecast_data = JDict [] ->
       get_forecast latitude longitude net w
       = (Ok "Unable to fetch forecast data for this location.", w2)) /\
      (forall fd,
          forecast_data = JDict fd -> fd <> [] -> lacks fd "properties" "periods" ->
          get_forecast latitude longitude net w
          = (Ok "Invalid forecast data received: missing period information.", w2))).
Proof.
  intros H. split; [| split].
  - intros Hd. apply (get_forecast_falsy _ _ _ _ _ _ H). now destruct Hd as [-> | ->].
  - intros d -> Hne Hl. now apply (get_forecast_lacks _ _ _ _ _ d).
  - intros d props forecast_url forecast_data w2 -> Hd Hp H2.
    rewrite (get_forecast_second _ _ _ _ _ _ _ _ _ _ H Hd Hp H2). split.
    + now intros [-> | ->].
    + intros fd -> Hne Hl. now rewrite forecast_text_lacks.
Qed.

Lemma get_forecast_messages_witness :
  get_forecast "38.5" "-77.0"
    (scripted [ok_json (points_response (JStr "U"));
               ok_json (JDict [("properties", JDict [("updated", JStr "now")])])])
    start
  = (Ok "Invalid forecast data received: missing period information.",
     sent (sent start (nws_request (points_url "38.5" "-77.0"))) (nws_request (JStr "U"))).
Proof.
  apply (proj2 (proj2 (proj2 (get_forecast_messages "38.5" "-77.0"
                  (scripted [ok_json (points_response (JStr "U"));
                             ok_json (JDict [("properties", JDict [("updated", JStr "now")])])])
                  start _ _ eq_refl))
                 _ _ _ _ _ eq_refl eq_refl eq_refl eq_refl)
           _ eq_refl).
  - discriminate.
  - right. exists [("updated", JStr "now")]. split; reflexivity.
Defined.

(** C4, as the claim has it, fails: the empty object lacks
    [properties.forecast], and a points response that is the empty object
    gets the message of the fetch stage, not "Invalid points data
    received: missing forecast information.". *)
Lemma get_forecast_empty_points_is_unable :
  lacks [] "properties" "forecast" /\
  get_forecast "38.5" "-77.0" (scripted [ok_json (JDict [])]) start
  = (Ok "Unable to fetch points data for this location.",
     sent start (nws_request (points_url "38.5" "-77.0"))).
Proof. split; [now left | reflexivity]. Qed.

(** C10. The empty object is treated as a failed fetch: when the fetch
    result is absent or the empty object, [get_alerts] returns "Unable to
    fetch alerts or no alerts found." and [get_forecast] returns "Unable to
    fetch points data for this location.", which is not the message of the
    validation stage. *)
Theorem empty_object_as_failed_fetch :
  (forall state net w w' data,
      make_nws_request (alerts_url state) net w = (Ok data, w') ->
      data = JNull \/ data = JDict [] ->
      get_alerts state net w = (Ok "Unable to fetch alerts or no alerts found.", w')) /\
  (forall latitude longitude net w w1 data,
      make_nws_request (points_url latitude longitude) net w = (Ok data, w1) ->
      data = JNull \/ data = JDict [] ->
      get_forecast latitude longitude net w
      = (Ok "Unable to fetch points data for this location.", w1) /\
      get_forecast latitude longitude net w
      <> (Ok "Invalid points data received: missing forecast information.", w1)).
Proof.
  split.
  - intros state net w w' data H Hd. rewrite (get_alerts_run _ _ _ _ _ H).
    rewrite alerts_text_falsy; [reflexivity |]. now destruct Hd as [-> | ->].
  - intros latitude longitude net w w1 data H Hd.
    assert (Hf : truthy data = false) by now destruct Hd as [-> | ->].
    rewrite (get_forecast_falsy _ _ _ _ _ _ H Hf). split; [reflexivity | discriminate].
Qed.

Lemma empty_object_as_failed_fetch_witness :
  get_alerts "XX" (scripted [ok_json (JDict [])]) start
  = (Ok "Unable to fetch alerts or no alerts found.",
     sent start (nws_request (alerts_url "XX"))) /\
  get_forecast "38.5" "-77.0" (scripted [ok_json (JDict [])]) start
  = (Ok "Unable to fetch points data for this location.",
     sent start (nws_request (points_url "38.5" "-77.0"))).
Proof.
  split.
  - apply (proj1 empty_object_as_failed_fetch "XX" (scripted [ok_json (JDict [])])
             start _ (JDict []) eq_refl).
    now right.
  - apply (proj2 empty_object_as_failed_fetch "38.5" "-77.0"
             (scripted [ok_json (JDict [])]) start _ (JDict []) eq_refl).
    now right.
Defined.

Lemma period_block_missing (fields : list (string * value)) (key : string) :
  In key period_fields ->
  lookup key fields = None ->
  exists missing,
    In missing period_fields /\ lookup missing fields = None /\
    period_block (JDict fields) = Raise (KeyError missing).
Proof.
  intros Hin Hkey. unfold period_block, getitem.
  destruct (lookup "name" fields) eqn:E1;
    [| exists "name"; simpl; intuition].
  destruct (lookup "temperature" fields) eqn:E2;
    [| exists "temperature"; simpl; intuition].
  destruct (lookup "temperatureUnit" fields) eqn:E3;
    [| exists "temperatureUnit"; simpl; intuition].
  destruct (lookup "windSpeed" fields) eqn:E4;
    [| exists "windSpeed"; simpl; intuition].
  destruct (lookup "windDirection" fields) eqn:E5;
    [| exists "windDirection"; simpl; intuition].
  destruct (lookup "detailedForecast" fields) eqn:E6;
    [| exists "detailedForecast"; simpl; intuition].
  exfalso. simpl in Hin.
  destruct Hin as [<- | [<- | [<- | [<- | [<- | [<- | []]]]]]]; congruence.
Qed.

Lemma map_result_raises_at {A B} (f : A -> result B) (before after : list A) (x : A)
    (e : exn) :
  Forall (fun a => exists b, f a = Ok b) before ->
  f x = Raise e ->
  map_result f (before ++ x :: after) = Raise e.
Proof.
  intros Hb Hx. induction Hb as [| a before [b Ha] _ IH]; simpl.
  - now rewrite Hx.
  - now rewrite Ha, IH.
Qed.

(** *** The validated path

    Both fetches returned an object, the first names a forecast URL and the
    second holds a [periods] list. *)
Section ValidatedPath.

Variables latitude longitude : float.
Variable net : network.
Variables w w1 w2 : world.
Variables d props fd fprops : list (string * value).
Variable forecast_url : value.
Variable periods : list value.

Hypothesis points_fetched :
  make_nws_request (points_url latitude longitude) net w = (Ok (JDict d), w1).
Hypothesis points_properties : lookup "properties" d = Some (JDict props).
Hypothesis points_forecast : lookup "forecast" props = Some forecast_url.
Hypothesis forecast_fetched :
  make_nws_request forecast_url net w1 = (Ok (JDict fd), w2).
Hypothesis forecast_properties : lookup "properties" fd = Some (JDict fprops).
Hypothesis forecast_periods : lookup "periods" fprops = Some (JList periods).

Lemma get_forecast_validated :
  get_forecast latitude longitude net w
  = (blocks <- map_result period_block (firstn 5 periods) ;;
     Ok (String.concat separator blocks), w2).
Proof.
  rewrite (get_forecast_second _ _ _ _ _ _ _ _ _ _
             points_fetched points_properties points_forecast forecast_fetched).
  now rewrite (forecast_text_periods _ _ _ forecast_properties forecast_periods).
Qed.

(** C7. On the validated path [get_forecast] formats the first five entries
    of [periods], in their order, and joins the blocks with the line "---"
    between two newlines; entries after the fifth play no part, and a list of
    five entries or fewer is used whole. *)
Theorem get_forecast_first_five :
  get_forecast latitude longitude net w
  = (blocks <- map_result period_block (firstn 5 periods) ;;
     Ok (String.concat (NL ++ "---" ++ NL) blocks), w2) /\
  (forall blocks,
      Forall2 (fun period block => period_block period = Ok block)
              (firstn 5 periods) blocks ->
      get_forecast latitude longitude net w
      = (Ok (String.concat (NL ++ "---" ++ NL) blocks), w2)) /\
  ((length periods <= 5)%nat ->
   forall blocks,
     Forall2 (fun period block => period_block period = Ok block) periods blocks ->
     get_forecast latitude longitude net w
     = (Ok (String.concat (NL ++ "---" ++ NL) blocks), w2)) /\
  (forall p1 p2 p3 p4 p5 rest block1 block2 block3 block4 block5,
      periods = p1 :: p2 :: p3 :: p4 :: p5 :: rest ->
      period_block p1 = Ok block1 ->
      period_block p2 = Ok block2 ->
      period_block p3 = Ok block3 ->
      period_block p4 = Ok block4 ->
      period_block p5 = Ok block5 ->
      get_forecast latitude longitude net w
      = (Ok (block1 ++ NL ++ "---" ++ NL ++ block2 ++ NL ++ "---" ++ NL ++ block3
             ++ NL ++ "---" ++ NL ++ block4 ++ NL ++ "---" ++ NL ++ block5), w2)).
Proof.
  rewrite get_forecast_validated. unfold separator.
  assert (Hfirst : forall blocks,
             Forall2 (fun period block => period_block period = Ok block)
                     (firstn 5 periods) blocks ->
             (blocks0 <- map_result period_block (firstn 5 periods) ;;
              Ok (String.concat (NL ++ "---" ++ NL) blocks0), w2)
             = (Ok (String.concat (NL ++ "---" ++ NL) blocks), w2)).
  { intros blocks Hb. apply map_result_Forall2 in Hb. now rewrite Hb. }
  split; [reflexivity | split; [exact Hfirst | split]].
  - intros Hlen blocks Hb. apply Hfirst. now rewrite firstn_all2.
  - intros p1 p2 p3 p4 p5 rest block1 block2 block3 block4 block5 Hp H1 H2 H3 H4 H5.
    rewrite (Hfirst [block1; block2; block3; block4; block5]).
    + reflexivity.
    + rewrite Hp. cbn [firstn]. repeat constructor; assumption.
Qed.


End ValidatedPath.

Lemma get_forecast_first_five_witness :
  get_forecast "38.5" "-77.0"
    (scripted [ok_json (points_response (JStr "U"));
               ok_json (forecast_response
                          (map period_named ["P1"; "P2"; "P3"; "P4"; "P5"; "P6"; "P7"]))])
    start
  = (Ok (block_named "P1" ++ NL ++ "---" ++ NL ++ block_named "P2"
         ++ NL ++ "---" ++ NL ++ block_named "P3"
         ++ NL ++ "---" ++ NL ++ block_named "P4"
         ++ NL ++ "---" ++ NL ++ block_named "P5"),
     sent (sent start (nws_request (points_url "38.5" "-77.0"))) (nws_request (JStr "U"))).
Proof.
  exact (proj2 (proj2 (proj2 (get_forecast_first_five "38.5" "-77.0"
                  (scripted [ok_json (points_response (JStr "U"));
                             ok_json (forecast_response
                                        (map period_named
                                             ["P1"; "P2"; "P3"; "P4"; "P5"; "P6"; "P7"]))])
                  start _ _ _ _ _ _ _ _
                  eq_refl eq_refl eq_refl eq_refl eq_refl eq_refl)))
           _ _ _ _ _ _ _ _ _ _ _ eq_refl eq_refl eq_refl eq_refl eq_refl eq_refl).
Defined.




(** C9. When the points fetch returns an object whose [properties.forecast]
    is the string [U], [get_forecast] makes two requests, the first for the
    points URL and the second for [U] itself. *)
Theorem get_forecast_second_fetch (latitude longitude : float) (net : network)
    (w w1 : world) (d props : list (string * value)) (U : string) :
  make_nws_request (points_url latitude longitude) net w = (Ok (JDict d), w1) ->
  lookup "properties" d = Some (JDict props) ->
  lookup "forecast" props = Some (JStr U) ->
  requests (snd (get_forecast latitude longitude net w))
  = (requests w ++ [nws_request (points_url latitude longitude); nws_request (JStr U)])%list /\
  map req_url (requests (snd (get_forecast latitude longitude net w)))
  = (map req_url (requests w) ++ [points_url latitude longitude; JStr U])%list.
Proof.
  intros H Hd Hp.
  destruct (make_nws_request_total (JStr U) net w1) as [forecast_data [w2 H2]].
  rewrite (get_forecast_second _ _ _ _ _ _ _ _ _ _ H Hd Hp H2). cbn [snd].
  apply make_nws_request_requests in H, H2.
  assert (Hreq : requests w2
                 = (requests w ++ [nws_request (points_url latitude longitude);
                                   nws_request (JStr U)])%list).
  { rewrite H2, H, <- app_assoc. reflexivity. }
  split; [exact Hreq |].
  rewrite Hreq, map_app. reflexivity.
Qed.

Lemma get_forecast_second_fetch_witness :
  map req_url
    (requests (snd (get_forecast "38.5" "-77.0"
                      (scripted [ok_json (points_response (JStr "U"))]) start)))
  = [points_url "38.5" "-77.0"; JStr "U"].
Proof.
  exact (proj2 (get_forecast_second_fetch "38.5" "-77.0"
                  (scripted [ok_json (points_response (JStr "U"))]) start
                  _ _ _ "U" eq_refl eq_refl eq_refl)).
Defined.

(** ** Runs on concrete responses *)

Example get_alerts_flood_warning :
  get_alerts "XX"
    (scripted [ok_json (JDict [("features",
                 JList [JDict [("properties",
                                JDict [("event", JStr "Flood Warning");
                                       ("areaDesc", JStr "XX County")])]])])])
    start
  = (Ok (NL ++ "Event: Flood Warning"
         ++ NL ++ "Area: XX County"
         ++ NL ++ "Severity: Unknown"
         ++ NL ++ "Description: No description available"
         ++ NL ++ "Instructions: No specific instructions provided"
         ++ NL),
     {| requests := [nws_request (JStr "https://api.weather.gov/alerts/active/area/XX")];
        log := [] |}).
Proof. reflexivity. Qed.

Example get_alerts_not_found :
  get_alerts "XX"
    (scripted [GetReturns {| status_code := 404;
                             status_error := "Client error '404 Not Found'";
                             body_json := Ok (JDict [("title", JStr "Not Found")]) |}])
    start
  = (Ok "Unable to fetch alerts or no alerts found.",
     {| requests := [nws_request (JStr "https://api.weather.gov/alerts/active/area/XX")];
        log := ["Error occurred while making NWS request to https://api.weather.gov/alerts/active/area/XX: Client error '404 Not Found'"] |}).
Proof. reflexivity. Qed.

Example get_forecast_timeout_on_second_fetch :
  get_forecast "38.5" "-77.0"
    (scripted [ok_json (points_response (JStr "https://api.weather.gov/gridpoints/LWX/96,70/forecast"));
               GetRaises (RequestError "timed out")])
    start
  = (Ok "Unable to fetch forecast data for this location.",
     {| requests := [nws_request (JStr "https://api.weather.gov/points/38.5,-77.0");
                     nws_request (JStr "https://api.weather.gov/gridpoints/LWX/96,70/forecast")];
        log := ["Error occurred while making NWS request to https://api.weather.gov/gridpoints/LWX/96,70/forecast: timed out"] |}).
Proof. reflexivity. Qed.

Example get_forecast_null_properties_raises :
  get_forecast "38.5" "-77.0" (scripted [ok_json (JDict [("properties", JNull)])]) start
  = (Raise (TypeError "argument of type 'NoneType' is not iterable"),
     sent start (nws_request (points_url "38.5" "-77.0"))).
Proof. reflexivity. Qed.

Example period_block_tonight :
  period_block (period_named "Tonight") = Ok (block_named "Tonight").
Proof. reflexivity. Qed.

(** ** Further properties of the request helper *)

Lemma make_nws_request_failure (url : value) (net : network) (w : world) (e : exn) :
  failure (net (length (requests w)) (nws_request url)) = Some e ->
  make_nws_request url net w = (Ok JNull, failed w url e).
Proof.
  rewrite make_nws_request_eq. unfold failure.
  destruct (net (length (requests w)) (nws_request url)) as [e' | res].
  - now intros [= ->].
  - destruct (is_success res); [| now intros [= <-]].
    destruct (body_json res); [discriminate | now intros [= ->]].
Qed.

Lemma make_nws_request_success (url : value) (net : network) (w : world) :
  failure (net (length (requests w)) (nws_request url)) = None ->
  exists v, make_nws_request url net w = (Ok v, sent w (nws_request url)).
Proof.
  rewrite make_nws_request_eq. unfold failure.
  destruct (net (length (requests w)) (nws_request url)) as [e' | res]; [discriminate |].
  destruct (is_success res); [| discriminate].
  destruct (body_json res); [eauto | discriminate].
Qed.

Lemma make_nws_request_effects (url : value) (net : network) (w w' : world) (v : value) :
  make_nws_request url net w = (Ok v, w') ->
  requests w' = (requests w ++ [nws_request url])%list /\
  (log w' = log w \/ (v = JNull /\ exists line, log w' = (log w ++ [line])%list)).
Proof.
  intros H. split; [exact (make_nws_request_requests _ _ _ _ _ H) |].
  destruct (failure (net (length (requests w)) (nws_request url))) as [e |] eqn:E.
  - rewrite (make_nws_request_failure _ _ _ _ E) in H.
    injection H as <- <-. right. split; [reflexivity |]. simpl. eauto.
  - destruct (make_nws_request_success _ _ _ E) as [v' H'].
    rewrite H' in H. injection H as _ <-. now left.
Qed.

Lemma app_one_neq {A} (l : list A) (x : A) : (l ++ [x])%list <> l.
Proof.
  intros H. apply (f_equal (@length A)) in H.
  rewrite length_app in H. simpl in H. lia.
Qed.

(** X1. The helper logs exactly when the request fails: the log is left as
    it was when the response is 2xx and its body parses, and gains the one
    line naming the URL and the error otherwise.  A [None] result is not a
    sign of failure: a 2xx response whose body is the JSON [null] gives
    [None] with nothing logged. *)
Theorem make_nws_request_logs_iff_failed (url : value) (net : network) (w : world) :
  let outcome := net (length (requests w)) (nws_request url) in
  let w' := snd (make_nws_request url net w) in
  (log w' = log w <-> failure outcome = None) /\
  (forall e, failure outcome = Some e -> log w' = (log w ++ [error_line url e])%list) /\
  (forall res,
      outcome = GetReturns res ->
      (200 <= status_code res <= 299)%Z ->
      body_json res = Ok JNull ->
      make_nws_request url net w = (Ok JNull, sent w (nws_request url))).
Proof.
  cbv zeta.
  destruct (failure (net (length (requests w)) (nws_request url))) as [e |] eqn:E.
  - rewrite (make_nws_request_failure _ _ _ _ E). cbn [snd failed logged log].
    split; [| split].
    + split; [| discriminate]. intros H. now apply app_one_neq in H.
    + now intros e' [= <-].
    + intros res Hres Hs Hb. rewrite Hres in E. unfold failure in E.
      apply is_success_2xx in Hs. rewrite Hs, Hb in E. discriminate.
  - destruct (make_nws_request_success _ _ _ E) as [v H]. rewrite H. cbn [snd sent log].
    split; [| split].
    + split; reflexivity.
    + discriminate.
    + intros res Hres Hs Hb. rewrite make_nws_request_eq in H. rewrite Hres in H.
      apply is_success_2xx in Hs. rewrite Hs, Hb in H. now injection H as <-.
Qed.

Lemma make_nws_request_logs_iff_failed_witness :
  make_nws_request (JStr "u") (scripted [ok_json JNull]) start
  = (Ok JNull, sent start (nws_request (JStr "u"))).
Proof.
  apply (proj2 (proj2 (make_nws_request_logs_iff_failed
                         (JStr "u") (scripted [ok_json JNull]) start))
           {| status_code := 200; status_error := ""; body_json := Ok JNull |}).
  - reflexivity.
  - simpl. lia.
  - reflexivity.
Defined.

(** ** Further properties of [get_alerts] *)

(** X2. Whatever makes the request fail (an exception of [client.get], a
    status that is not 2xx, a body that is not JSON), [get_alerts] returns
    "Unable to fetch alerts or no alerts found.", having made the one request
    and logged the one line for it. *)
Theorem get_alerts_fetch_failure (state : string) (net : network) (w : world) (e : exn) :
  failure (net (length (requests w)) (nws_request (alerts_url state))) = Some e ->
  get_alerts state net w
  = (Ok "Unable to fetch alerts or no alerts found.",
     {| requests := requests w ++ [nws_request (alerts_url state)];
        log := log w ++ [error_line (alerts_url state) e] |}).
Proof.
  intros H. apply make_nws_request_failure in H.
  now rewrite (get_alerts_run _ _ _ _ _ H).
Qed.

Lemma get_alerts_fetch_failure_witness :
  get_alerts "XX"
    (scripted [GetReturns {| status_code := 503;
                             status_error := "Server error '503 Service Unavailable'";
                             body_json := Ok (JDict [("features", JList [])]) |}])
    start
  = (Ok "Unable to fetch alerts or no alerts found.",
     {| requests := [nws_request (alerts_url "XX")];
        log := [error_line (alerts_url "XX")
                  (HTTPStatusError "Server error '503 Service Unavailable'")] |}).
Proof.
  exact (get_alerts_fetch_failure "XX"
           (scripted [GetReturns {| status_code := 503;
                                    status_error := "Server error '503 Service Unavailable'";
                                    body_json := Ok (JDict [("features", JList [])]) |}])
           start _ eq_refl).
Defined.

(** X3. [get_alerts] makes exactly one request per call, to the alerts URL
    with the state code put in as it is, with the two fixed headers and the
    30 second timeout; it never retries, keeps every earlier log line and
    adds at most one. *)
Theorem get_alerts_effects (state : string) (net : network) (w : world) :
  let w' := snd (get_alerts state net w) in
  requests w'
  = (requests w
     ++ [{| req_url := JStr ("https://api.weather.gov/alerts/active/area/" ++ state);
            req_headers := nws_headers;
            req_timeout := "30.0" |}])%list /\
  exists lines, log w' = (log w ++ lines)%list /\ (length lines <= 1)%nat.
Proof.
  cbv zeta.
  destruct (make_nws_request_total (alerts_url state) net w) as [data [w1 H]].
  rewrite (get_alerts_run _ _ _ _ _ H). cbn [snd].
  destruct (make_nws_request_effects _ _ _ _ _ H) as [Hreq Hlog].
  split; [exact Hreq |].
  destruct Hlog as [Hlog | [_ [line Hlog]]].
  - exists []. rewrite app_nil_r. split; [exact Hlog | simpl; lia].
  - exists [line]. split; [exact Hlog | simpl; lia].
Qed.

(** X4. The test for "no alerts" is a test for a falsy [features], not for an
    empty list: a [features] that is [null], [false], 0, the empty string or
    the empty object gives "No active alerts for this state." as the empty
    list does. *)
Theorem get_alerts_falsy_features (state : string) (net : network) (w w' : world)
    (d : list (string * value)) (features : value) :
  make_nws_request (alerts_url state) net w = (Ok (JDict d), w') ->
  lookup "features" d = Some features ->
  truthy features = false ->
  get_alerts state net w = (Ok "No active alerts for this state.", w').
Proof.
  intros H Hd Hf. rewrite (get_alerts_run _ _ _ _ _ H).
  now rewrite alerts_text_dict, Hd, Hf.
Qed.

Lemma get_alerts_falsy_features_witness :
  get_alerts "XX" (scripted [ok_json (JDict [("features", JNull)])]) start
  = (Ok "No active alerts for this state.", sent start (nws_request (alerts_url "XX"))).
Proof.
  exact (get_alerts_falsy_features "XX" (scripted [ok_json (JDict [("features", JNull)])])
           start _ _ JNull eq_refl eq_refl eq_refl).
Defined.

(** X5. How [format_alert] fails on what is not an alert-feature record: a
    [KeyError] for "properties" on an object without that key, an
    [AttributeError] when [properties] is there and is not an object (it has
    no [get]), a [TypeError] when the feature itself is not an object. *)
Theorem format_alert_failure_modes (feature : value) :
  (forall d,
      feature = JDict d -> lookup "properties" d = None ->
      format_alert feature = Raise (KeyError "properties")) /\
  (forall d props,
      feature = JDict d -> lookup "properties" d = Some props ->
      (forall p, props <> JDict p) ->
      exists msg, format_alert feature = Raise (AttributeError msg)) /\
  ((forall d, feature <> JDict d) ->
   exists msg, format_alert feature = Raise (TypeError msg)).
Proof.
  split; [| split].
  - intros d -> H. unfold format_alert, getitem. now rewrite H.
  - intros d props -> H Hp. unfold format_alert, getitem. rewrite H.
    unfold bind at 1, get.
    destruct props as [| b | z | r | s | l | p]; simpl; eauto. now destruct (Hp p).
  - intros H. unfold format_alert, getitem.
    destruct feature as [| b | z | r | s | l | d]; simpl; eauto.
    now destruct (H d).
Qed.

Lemma format_alert_failure_modes_witness :
  exists msg,
    format_alert (JDict [("properties", JList [])]) = Raise (AttributeError msg).
Proof.
  apply (proj1 (proj2 (format_alert_failure_modes (JDict [("properties", JList [])])))
           [("properties", JList [])] (JList []) eq_refl eq_refl).
  discriminate.
Defined.

(** X6. A placeholder stands in for a key that is absent, not for a value
    that is [null]: a field whose key is present with the value [null] is
    shown as "None". *)
Theorem format_alert_null_field (feature props : list (string * value)) :
  lookup "properties" feature = Some (JDict props) ->
  let event := field props "event" "Unknown" in
  let area := field props "areaDesc" "Unknown" in
  let severity := field props "severity" "Unknown" in
  let description := field props "description" "No description available" in
  let instructions := field props "instruction" "No specific instructions provided" in
  (lookup "event" props = Some JNull ->
   format_alert (JDict feature)
   = Ok (alert_block "None" area severity description instructions)) /\
  (lookup "areaDesc" props = Some JNull ->
   format_alert (JDict feature)
   = Ok (alert_block event "None" severity description instructions)) /\
  (lookup "severity" props = Some JNull ->
   format_alert (JDict feature)
   = Ok (alert_block event area "None" description instructions)) /\
  (lookup "description" props = Some JNull ->
   format_alert (JDict feature)
   = Ok (alert_block event area severity "None" instructions)) /\
  (lookup "instruction" props = Some JNull ->
   format_alert (JDict feature)
   = Ok (alert_block event area severity description "None")).
Proof.
  intros H. cbv zeta. rewrite (format_alert_props _ _ H).
  repeat split; intros Hk; unfold field; now rewrite Hk.
Qed.

Lemma format_alert_null_field_witness :
  format_alert
    (JDict [("properties", JDict [("event", JStr "Heat Advisory");
                                  ("instruction", JNull)])])
  = Ok (alert_block "Heat Advisory" "Unknown" "Unknown" "No description available" "None").
Proof.
  exact (proj2 (proj2 (proj2 (proj2
           (format_alert_null_field
              [("properties", JDict [("event", JStr "Heat Advisory");
                                     ("instruction", JNull)])]
              [("event", JStr "Heat Advisory"); ("instruction", JNull)]
              eq_refl)))) eq_refl).
Defined.

(** X7. The block depends on the five fields only: two records whose
    [properties] agree on event, areaDesc, severity, description and
    instruction are formatted alike, whatever else the records or their
    [properties] hold. *)
Theorem format_alert_reads_five_fields (feature feature' props props' : list (string * value)) :
  lookup "properties" feature = Some (JDict props) ->
  lookup "properties" feature' = Some (JDict props') ->
  (forall key, In key alert_fields -> lookup key props = lookup key props') ->
  format_alert (JDict feature) = format_alert (JDict feature').
Proof.
  intros H H' Hsame.
  rewrite (format_alert_props _ _ H), (format_alert_props _ _ H').
  unfold field. rewrite !Hsame by (simpl; tauto). reflexivity.
Qed.

Lemma format_alert_reads_five_fields_witness :
  format_alert (JDict [("properties", JDict [("event", JStr "Flood Warning")])])
  = format_alert (JDict [("id", JInt 7);
                         ("properties", JDict [("headline", JStr "Flooding");
                                               ("event", JStr "Flood Warning")])]).
Proof.
  apply (format_alert_reads_five_fields
           [("properties", JDict [("event", JStr "Flood Warning")])]
           [("id", JInt 7);
            ("properties", JDict [("headline", JStr "Flooding");
                                  ("event", JStr "Flood Warning")])]
           [("event", JStr "Flood Warning")]
           [("headline", JStr "Flooding"); ("event", JStr "Flood Warning")]
           eq_refl eq_refl).
  intros key Hin. simpl in Hin.
  destruct Hin as [<- | [<- | [<- | [<- | [<- | []]]]]]; reflexivity.
Defined.

(** X8. The features are formatted in order and the first one that cannot be
    formatted ends the call: when the features before it are alert-feature
    records, [get_alerts] raises what [format_alert] raises on it, and returns
    nothing of the blocks already built. *)
Theorem get_alerts_first_bad_feature (state : string) (net : network) (w w' : world)
    (d : list (string * value)) (before after : list value) (bad : value) (e : exn) :
  make_nws_request (alerts_url state) net w = (Ok (JDict d), w') ->
  lookup "features" d = Some (JList (before ++ bad :: after)) ->
  forallb is_feature before = true ->
  format_alert bad = Raise e ->
  get_alerts state net w = (Raise e, w').
Proof.
  intros H Hd Hbefore Hbad. rewrite (get_alerts_run _ _ _ _ _ H).
  rewrite alerts_text_dict, Hd.
  assert (Ht : truthy (JList (before ++ bad :: after)) = true) by now destruct before.
  rewrite Ht. cbn [negb iter]. unfold bind at 1.
  rewrite (map_result_raises_at format_alert before after bad e); [reflexivity | | exact Hbad].
  apply Forall_forall. intros f Hin. apply format_alert_ok_iff.
  rewrite forallb_forall in Hbefore. now apply Hbefore.
Qed.

Lemma get_alerts_first_bad_feature_witness :
  get_alerts "XX"
    (scripted [ok_json (JDict [("features",
                                JList [JDict [("properties", JDict [])];
                                       JStr "storm";
                                       JDict []])])])
    start
  = (Raise (TypeError "string indices must be integers, not 'str'"),
     sent start (nws_request (alerts_url "XX"))).
Proof.
  exact (get_alerts_first_bad_feature "XX"
           (scripted [ok_json (JDict [("features",
                                       JList [JDict [("properties", JDict [])];
                                              JStr "storm";
                                              JDict []])])])
           start _ _ [JDict [("properties", JDict [])]] [JDict []] (JStr "storm") _
           eq_refl eq_refl eq_refl eq_refl).
Defined.

(** ** Further properties of [get_forecast] *)

(** X9. A failed request at either stage gives that stage's message: when
    the points request fails, "Unable to fetch points data for this
    location." after one request and one log line, with no second request;
    when the forecast request fails, whatever value [properties.forecast]
    held, "Unable to fetch forecast data for this location." with the line
    logged for that value. *)
Theorem get_forecast_fetch_failure (latitude longitude : float) (net : network)
    (w : world) :
  (forall e,
      failure (net (length (requests w)) (nws_request (points_url latitude longitude)))
      = Some e ->
      get_forecast latitude longitude net w
      = (Ok "Unable to fetch points data for this location.",
         {| requests := requests w ++ [nws_request (points_url latitude longitude)];
            log := log w ++ [error_line (points_url latitude longitude) e] |})) /\
  (forall w1 d props forecast_url e,
      make_nws_request (points_url latitude longitude) net w = (Ok (JDict d), w1) ->
      lookup "properties" d = Some (JDict props) ->
      lookup "forecast" props = Some forecast_url ->
      failure (net (length (requests w1)) (nws_request forecast_url)) = Some e ->
      get_forecast latitude longitude net w
      = (Ok "Unable to fetch forecast data for this location.",
         {| requests := requests w1 ++ [nws_request forecast_url];
            log := log w1 ++ [error_line forecast_url e] |})).
Proof.
  split.
  - intros e H. apply make_nws_request_failure in H.
    now rewrite (get_forecast_falsy _ _ _ _ _ _ H eq_refl).
  - intros w1 d props forecast_url e H Hd Hp Hf.
    apply make_nws_request_failure in Hf.
    now rewrite (get_forecast_second _ _ _ _ _ _ _ _ _ _ H Hd Hp Hf).
Qed.

Lemma get_forecast_fetch_failure_witness :
  get_forecast "38.5" "-77.0"
    (scripted [ok_json (points_response JNull);
               GetRaises (TypeError "Invalid type for url")])
    start
  = (Ok "Unable to fetch forecast data for this location.",
     {| requests := [nws_request (points_url "38.5" "-77.0"); nws_request JNull];
        log := ["Error occurred while making NWS request to None: Invalid type for url"] |}).
Proof.
  exact (proj2 (get_forecast_fetch_failure "38.5" "-77.0"
                  (scripted [ok_json (points_response JNull);
                             GetRaises (TypeError "Invalid type for url")])
                  start)
           _ _ _ JNull _ eq_refl eq_refl eq_refl eq_refl).
Defined.

Lemma get_forecast_world (latitude longitude : float) (net : network) (w w1 : world)
    (points_data : value) :
  make_nws_request (points_url latitude longitude) net w = (Ok points_data, w1) ->
  snd (get_forecast latitude longitude net w) = w1 \/
  (truthy points_data = true /\
   exists forecast_url forecast_data,
     make_nws_request forecast_url net w1
     = (Ok forecast_data, snd (get_forecast latitude longitude net w))).
Proof.
  intros H. rewrite (get_forecast_run _ _ _ _ _ _ H).
  destruct (truthy points_data) eqn:Ht; cbn [negb]; [| now left].
  destruct (por _ _) as [[|] | e]; [now left | | now left].
  destruct (props <- getitem points_data "properties" ;; getitem props "forecast")
    as [forecast_url | e]; [| now left].
  destruct (make_nws_request_total forecast_url net w1) as [forecast_data [w2 H2]].
  rewrite H2. right. split; [reflexivity |]. cbn [snd]. eauto.
Qed.

(** X10. [get_forecast] makes one request or two and never more: the first
    for the points URL built from the two coordinates, the second, if any,
    with the same headers and timeout.  It keeps every earlier log line and
    adds at most one: a call never logs two failures. *)
Theorem get_forecast_effects (latitude longitude : float) (net : network) (w : world) :
  let w' := snd (get_forecast latitude longitude net w) in
  (exists more,
      requests w'
      = (requests w
         ++ {| req_url := JStr ("https://api.weather.gov/points/"
                                ++ latitude ++ "," ++ longitude);
               req_headers := nws_headers;
               req_timeout := "30.0" |} :: more)%list /\
      (length more <= 1)%nat /\
      Forall (fun req => req_headers req = nws_headers /\ req_timeout req = "30.0") more) /\
  (exists lines, log w' = (log w ++ lines)%list /\ (length lines <= 1)%nat).
Proof.
  cbv zeta.
  destruct (make_nws_request_total (points_url latitude longitude) net w)
    as [points_data [w1 H]].
  destruct (make_nws_request_effects _ _ _ _ _ H) as [Hreq Hlog].
  destruct (get_forecast_world _ _ _ _ _ _ H) as [-> | [Ht [forecast_url [forecast_data H2]]]].
  - split.
    + exists []. split; [exact Hreq | split; [simpl; lia | constructor]].
    + destruct Hlog as [Hlog | [_ [line Hlog]]].
      * exists []. rewrite app_nil_r. split; [exact Hlog | simpl; lia].
      * exists [line]. split; [exact Hlog | simpl; lia].
  - destruct (make_nws_request_effects _ _ _ _ _ H2) as [Hreq2 Hlog2].
    assert (Hlog1 : log w1 = log w).
    { destruct Hlog as [Hlog | [-> _]]; [exact Hlog | discriminate]. }
    split.
    + exists [nws_request forecast_url]. split; [| split].
      * rewrite Hreq2, Hreq, <- app_assoc. reflexivity.
      * simpl. lia.
      * repeat constructor.
    + rewrite <- Hlog1. destruct Hlog2 as [Hlog2 | [_ [line Hlog2]]].
      * exists []. rewrite app_nil_r. split; [exact Hlog2 | simpl; lia].
      * exists [line]. split; [exact Hlog2 | simpl; lia].
Qed.

Lemma period_block_fields (fields : list (string * value))
    (name temperature unit speed direction forecast : value) :
  lookup "name" fields = Some name ->
  lookup "temperature" fields = Some temperature ->
  lookup "temperatureUnit" fields = Some unit ->
  lookup "windSpeed" fields = Some speed ->
  lookup "windDirection" fields = Some direction ->
  lookup "detailedForecast" fields = Some forecast ->
  period_block (JDict fields)
  = Ok (forecast_block (str name) (str temperature) (str unit) (str speed)
          (str direction) (str forecast)).
Proof.
  intros H1 H2 H3 H4 H5 H6. unfold period_block, getitem.
  now rewrite H1, H2, H3, H4, H5, H6.
Qed.

Lemma period_block_ok (period : value) :
  (exists block, period_block period = Ok block) <-> is_period period = true.
Proof.
  split.
  - intros [block H].
    destruct period as [| b | z | r | s | l | fields]; try discriminate.
    destruct (is_period (JDict fields)) eqn:E; [reflexivity | exfalso].
    cbn [is_period] in E.
    assert (Hex : exists key, In key period_fields /\ has_key fields key = false).
    { destruct (forallb (has_key fields) period_fields) eqn:F; [discriminate |].
      clear E. unfold period_fields in *. cbn [forallb] in F.
      repeat match type of F with
             | (has_key fields ?k && _)%bool = false =>
                 destruct (has_key fields k) eqn:?;
                 [cbn [andb] in F | exists k; split; [simpl; tauto | assumption]]
             end.
      discriminate. }
    destruct Hex as [key [Hin Hk]]. unfold has_key in Hk.
    destruct (lookup key fields) eqn:El; [discriminate |].
    destruct (period_block_missing fields key Hin El) as [missing [_ [_ Hr]]].
    congruence.
  - intros H. destruct period as [| b | z | r | s | l | fields]; try discriminate.
    cbn [is_period] in H. rewrite forallb_forall in H.
    assert (Hk : forall key, In key period_fields -> exists v, lookup key fields = Some v).
    { intros key Hin. specialize (H key Hin). unfold has_key in H.
      destruct (lookup key fields); [eauto | discriminate]. }
    destruct (Hk "name") as [v1 H1]; [simpl; tauto |].
    destruct (Hk "temperature") as [v2 H2]; [simpl; tauto |].
    destruct (Hk "temperatureUnit") as [v3 H3]; [simpl; tauto |].
    destruct (Hk "windSpeed") as [v4 H4]; [simpl; tauto |].
    destruct (Hk "windDirection") as [v5 H5]; [simpl; tauto |].
    destruct (Hk "detailedForecast") as [v6 H6]; [simpl; tauto |].
    rewrite (period_block_fields _ _ _ _ _ _ _ H1 H2 H3 H4 H5 H6). eauto.
Qed.

Lemma map_result_ok_forallb {A B} (f : A -> result B) (p : A -> bool) (l : list A) :
  (forall x, (exists y, f x = Ok y) <-> p x = true) ->
  (exists ys, map_result f l = Ok ys) <-> forallb p l = true.
Proof.
  intros Hp. rewrite forallb_forall. split.
  - intros [ys H] x Hin. destruct (p x) eqn:E; [reflexivity | exfalso].
    destruct (f x) as [y | e] eqn:Ex.
    + assert (p x = true) by (apply Hp; eauto). congruence.
    + destruct (map_result_raises _ _ _ _ Hin Ex) as [e' He']. congruence.
  - intros H. apply map_result_ok. intros x Hin. apply Hp. now apply H.
Qed.

(** X11. The block of a period: [period_block] returns a block exactly for an
    object that has all six keys, and the block is then the name, the
    temperature with the degree sign and the unit, the wind speed and
    direction and the detailed forecast on their four lines, each value shown
    as [str] shows it (a number in decimal, [null] as "None"). *)
Theorem period_block_complete (period : value) :
  ((exists block, period_block period = Ok block) <-> is_period period = true) /\
  (forall fields name temperature unit speed direction forecast,
      period = JDict fields ->
      lookup "name" fields = Some name ->
      lookup "temperature" fields = Some temperature ->
      lookup "temperatureUnit" fields = Some unit ->
      lookup "windSpeed" fields = Some speed ->
      lookup "windDirection" fields = Some direction ->
      lookup "detailedForecast" fields = Some forecast ->
      period_block period
      = Ok (NL ++ str name
            ++ NL ++ "Temperature: " ++ str temperature ++ degree ++ str unit
            ++ NL ++ "Wind: " ++ str speed ++ " " ++ str direction
            ++ NL ++ "Forecast: " ++ str forecast
            ++ NL)).
Proof.
  split; [apply period_block_ok |].
  intros fields name temperature unit speed direction forecast -> H1 H2 H3 H4 H5 H6.
  now rewrite (period_block_fields _ _ _ _ _ _ _ H1 H2 H3 H4 H5 H6).
Qed.

Lemma period_block_complete_witness :
  period_block
    (JDict [("number", JInt 1); ("name", JStr "Tonight"); ("temperature", JInt 58);
            ("temperatureUnit", JStr "F"); ("windSpeed", JStr "5 to 10 mph");
            ("windDirection", JNull); ("detailedForecast", JStr "Mostly clear.")])
  = Ok (NL ++ "Tonight"
        ++ NL ++ "Temperature: 58" ++ degree ++ "F"
        ++ NL ++ "Wind: 5 to 10 mph None"
        ++ NL ++ "Forecast: Mostly clear."
        ++ NL).
Proof.
  exact (proj2 (period_block_complete
                  (JDict [("number", JInt 1); ("name", JStr "Tonight");
                          ("temperature", JInt 58); ("temperatureUnit", JStr "F");
                          ("windSpeed", JStr "5 to 10 mph"); ("windDirection", JNull);
                          ("detailedForecast", JStr "Mostly clear.")]))
           _ _ _ _ _ _ _ eq_refl eq_refl eq_refl eq_refl eq_refl eq_refl eq_refl).
Defined.

(** X12. On the validated path [get_forecast] returns a string exactly when
    each of the first five periods is an object with the six fields, and
    raises otherwise; what the periods after the fifth are is never looked
    at. *)
Theorem get_forecast_returns_iff (latitude longitude : float) (net : network)
    (w w1 w2 : world) (d props fd fprops : list (string * value))
    (forecast_url : value) (periods : list value) :
  make_nws_request (points_url latitude longitude) net w = (Ok (JDict d), w1) ->
  lookup "properties" d = Some (JDict props) ->
  lookup "forecast" props = Some forecast_url ->
  make_nws_request forecast_url net w1 = (Ok (JDict fd), w2) ->
  lookup "properties" fd = Some (JDict fprops) ->
  lookup "periods" fprops = Some (JList periods) ->
  ((exists text, get_forecast latitude longitude net w = (Ok text, w2))
   <-> forallb is_period (firstn 5 periods) = true) /\
  ((exists e, get_forecast latitude longitude net w = (Raise e, w2))
   <-> forallb is_period (firstn 5 periods) = false).
Proof.
  intros H Hd Hp H2 Hfd Hfp.
  rewrite (get_forecast_validated _ _ _ _ _ _ _ _ _ _ _ _ H Hd Hp H2 Hfd Hfp).
  pose proof (map_result_ok_forallb period_block is_period (firstn 5 periods)
                period_block_ok) as Hiff.
  destruct (map_result period_block (firstn 5 periods)) as [blocks | e] eqn:E; cbn [bind].
  - assert (Hs : forallb is_period (firstn 5 periods) = true) by (apply Hiff; eauto).
    rewrite Hs. split; split; eauto; try discriminate.
    intros [e [=]].
  - destruct (forallb is_period (firstn 5 periods)) eqn:Hs.
    + destruct Hiff as [_ Hiff]. destruct (Hiff eq_refl) as [blocks [=]].
    + split; split; eauto; try discriminate.
      intros [text [=]].
Qed.

Lemma get_forecast_returns_iff_witness :
  exists text,
    get_forecast "38.5" "-77.0"
      (scripted [ok_json (points_response (JStr "U"));
                 ok_json (forecast_response
                            (map period_named ["P1"; "P2"; "P3"; "P4"; "P5"]
                             ++ [JNull; JStr "not a period"]))])
      start
    = (Ok text,
       sent (sent start (nws_request (points_url "38.5" "-77.0"))) (nws_request (JStr "U"))).
Proof.
  apply (proj1 (get_forecast_returns_iff "38.5" "-77.0"
                  (scripted [ok_json (points_response (JStr "U"));
                             ok_json (forecast_response
                                        (map period_named ["P1"; "P2"; "P3"; "P4"; "P5"]
                                         ++ [JNull; JStr "not a period"]))])
                  start _ _ _ _ _ _ _ _
                  eq_refl eq_refl eq_refl eq_refl eq_refl eq_refl)).
  reflexivity.
Defined.

(** X13. An empty [periods] list is not an error case: on the validated path
    it makes [get_forecast] return the empty string, where [get_alerts] has a
    message for an empty [features]; a single period gives its block alone,
    with no separator. *)
Theorem get_forecast_few_periods (latitude longitude : float) (net : network)
    (w w1 w2 : world) (d props fd fprops : list (string * value))
    (forecast_url : value) (periods : list value) :
  make_nws_request (points_url latitude longitude) net w = (Ok (JDict d), w1) ->
  lookup "properties" d = Some (JDict props) ->
  lookup "forecast" props = Some forecast_url ->
  make_nws_request forecast_url net w1 = (Ok (JDict fd), w2) ->
  lookup "properties" fd = Some (JDict fprops) ->
  lookup "periods" fprops = Some (JList periods) ->
  (periods = [] -> get_forecast latitude longitude net w = (Ok "", w2)) /\
  (forall period block,
      periods = [period] ->
      period_block period = Ok block ->
      get_forecast latitude longitude net w = (Ok block, w2)).
Proof.
  intros H Hd Hp H2 Hfd Hfp.
  rewrite (get_forecast_validated _ _ _ _ _ _ _ _ _ _ _ _ H Hd Hp H2 Hfd Hfp).
  split.
  - now intros ->.
  - intros period block -> Hb. simpl. now rewrite Hb.
Qed.

Lemma get_forecast_few_periods_witness :
  get_forecast "38.5" "-77.0"
    (scripted [ok_json (points_response (JStr "U")); ok_json (forecast_response [])])
    start
  = (Ok "",
     sent (sent start (nws_request (points_url "38.5" "-77.0"))) (nws_request (JStr "U"))).
Proof.
  exact (proj1 (get_forecast_few_periods "38.5" "-77.0"
                  (scripted [ok_json (points_response (JStr "U"));
                             ok_json (forecast_response [])])
                  start _ _ _ _ _ _ _ _
                  eq_refl eq_refl eq_refl eq_refl eq_refl eq_refl)
           eq_refl).
Defined.

Lemma get_forecast_points_properties (latitude longitude : float) (net : network)
    (w w1 : world) (d : list (string * value)) (properties : value) :
  make_nws_request (points_url latitude longitude) net w = (Ok (JDict d), w1) ->
  lookup "properties" d = Some properties ->
  get_forecast latitude longitude net w =
  match contains "forecast" properties with
  | Raise e => (Raise e, w1)
  | Ok false => (Ok "Invalid points data received: missing forecast information.", w1)
  | Ok true =>
      match getitem properties "forecast" with
      | Raise e => (Raise e, w1)
      | Ok forecast_url =>
          match make_nws_request forecast_url net w1 with
          | (Ok forecast_data, w2) => (forecast_text forecast_data, w2)
          | (Raise e, w2) => (Raise e, w2)
          end
      end
  end.
Proof.
  intros H Hd. rewrite (get_forecast_run _ _ _ _ _ _ H).
  destruct d as [| kv d]; [discriminate |].
  cbn [truthy negb]. unfold por.
  cbn [contains getitem]. rewrite Hd. cbn [bind negb].
  destruct (contains "forecast" properties) as [[|] | e]; reflexivity.
Qed.

(** X14. The validation of the points response looks for the two keys with
    [in] and does not ask whether [properties] is an object.  A [properties]
    that is [null], a boolean or a number makes [get_forecast] raise
    [TypeError]; one that is a list or a string gives "Invalid points data
    received: missing forecast information." unless it holds "forecast" (as
    an element, as a substring), and then the subscript of line 76 raises
    [TypeError].  In each case one request has been made and no second. *)
Theorem get_forecast_properties_not_object (latitude longitude : float) (net : network)
    (w w1 : world) (d : list (string * value)) (properties : value) :
  make_nws_request (points_url latitude longitude) net w = (Ok (JDict d), w1) ->
  lookup "properties" d = Some properties ->
  (properties = JNull \/ (exists b, properties = JBool b) \/
   (exists z, properties = JInt z) \/ (exists r, properties = JFloat r) ->
   exists msg, get_forecast latitude longitude net w = (Raise (TypeError msg), w1)) /\
  (forall l,
      properties = JList l ->
      (In (JStr "forecast") l ->
       exists msg, get_forecast latitude longitude net w = (Raise (TypeError msg), w1)) /\
      (~ In (JStr "forecast") l ->
       get_forecast latitude longitude net w
       = (Ok "Invalid points data received: missing forecast information.", w1))) /\
  (forall s,
      properties = JStr s ->
      (substring_of "forecast" s = true ->
       exists msg, get_forecast latitude longitude net w = (Raise (TypeError msg), w1)) /\
      (substring_of "forecast" s = false ->
       get_forecast latitude longitude net w
       = (Ok "Invalid points data received: missing forecast information.", w1))).
Proof.
  intros H Hd. rewrite (get_forecast_points_properties _ _ _ _ _ _ _ H Hd).
  split; [| split].
  - intros [-> | [[b ->] | [[z ->] | [r ->]]]]; simpl; eauto.
  - intros l ->. cbn [contains getitem].
    assert (Hex : existsb (is_str "forecast") l = true <-> In (JStr "forecast") l).
    { rewrite existsb_exists. split.
      - intros [x [Hin Hx]]. destruct x; try discriminate.
        simpl in Hx. apply String.eqb_eq in Hx. now subst.
      - intros Hin. exists (JStr "forecast"). split; [exact Hin | reflexivity]. }
    split; intros Hin.
    + apply Hex in Hin. rewrite Hin. eauto.
    + destruct (existsb (is_str "forecast") l); [| reflexivity].
      exfalso. apply Hin, Hex. reflexivity.
  - intros s ->. cbn [contains getitem].
    split; intros ->; eauto.
Qed.

Lemma get_forecast_properties_not_object_witness :
  exists msg,
    get_forecast "38.5" "-77.0"
      (scripted [ok_json (JDict [("properties", JStr "no forecast for this point")])])
      start
    = (Raise (TypeError msg), sent start (nws_request (points_url "38.5" "-77.0"))).
Proof.
  exact (proj1 (proj2 (proj2 (get_forecast_properties_not_object "38.5" "-77.0"
                  (scripted [ok_json (JDict [("properties",
                                              JStr "no forecast for this point")])])
                  start _ _ _ eq_refl eq_refl))
                 "no forecast for this point" eq_refl) eq_refl).
Defined.

(** X15. The loop of [get_forecast] only appends: run over periods that all
    format, it returns the blocks it started with followed by the blocks of
    the periods, in their order; a period that does not format ends it with
    that period's exception, and the blocks collected so far are lost. *)
Theorem for_periods_appends (forecasts : list string) (periods : list value) :
  (forall blocks,
      Forall2 (fun period block => period_block period = Ok block) periods blocks ->
      for_periods forecasts periods = Ok (forecasts ++ blocks)%list) /\
  (forall before bad after e,
      periods = (before ++ bad :: after)%list ->
      Forall (fun period => exists block, period_block period = Ok block) before ->
      period_block bad = Raise e ->
      for_periods forecasts periods = Raise e).
Proof.
  rewrite for_periods_map_result. split.
  - intros blocks H. apply map_result_Forall2 in H. now rewrite H.
  - intros before bad after e -> Hb He.
    now rewrite (map_result_raises_at _ _ _ _ _ Hb He).
Qed.

Lemma for_periods_appends_witness :
  for_periods ["earlier"] [period_named "Tonight"; period_named "Tuesday"]
  = Ok ["earlier"; block_named "Tonight"; block_named "Tuesday"].
Proof.
  apply (proj1 (for_periods_appends ["earlier"]
                  [period_named "Tonight"; period_named "Tuesday"])
           [block_named "Tonight"; block_named "Tuesday"]).
  repeat constructor.
Defined.
